(** * A shallow embedding of gocent, the Go client of the Centrifugo HTTP API

    The model follows the sources under [src/]: [options.go] (option records
    and their decorators), [pipe.go] (the command buffer, current revision at
    lines 234-486 and the v3.1 revision at lines 1-232), [doc.go] (the
    Pipe-based client: [SendPipe], [send], the single-command wrappers) and
    [main.go] (the legacy buffered client, for its [send]).

    Conventions:
    - Go [error] values are the inductive [error]; a nil error is [None].
    - A Go slice or pointer that the caller can keep ([json.RawMessage],
      [[]string], [*StreamPosition], [*Disconnect]) is nil or an address
      into a heap of Go objects, the backing array or the pointed-to value.
    - A decorator [func( *XOptions)] is modelled by its effect on the record
      its argument points to.
    - Network effects are a small free monad [io]: the dynamic endpoint
      resolver and [httpClient.Do] are its two operations. *)

From Stdlib Require Import String ZArith.
From stdpp Require Import base list gmap strings.

Open Scope Z_scope.

(** ** Memory shared between the caller and the library *)

Record StreamPosition := mkStreamPosition {
  Offset : N;
  Epoch : string;
}.

(** [Disconnect] of options.go. *)
Record Disconnect := mkDisconnect {
  DCode : N;
  DReason : string;
  DReconnect : bool;
}.

(** An object a Go slice or pointer can refer to. *)
Inductive HeapObj :=
| HBytes (bs : string)
| HStreamPosition (sp : StreamPosition)
| HStrings (ss : list string)
| HDisconnect (d : Disconnect).

Definition loc := N.

(** Go memory reachable through slices and pointers. *)
Abbreviation heap := (gmap loc HeapObj).

(** [json.RawMessage] / [[]byte]: nil, or a slice over a backing array. *)
Definition RawMessage := option loc.

(** [*StreamPosition]: nil or an address. *)
Definition StreamPositionPtr := option loc.

(** [[]string]: nil, or a slice over a backing array of strings. *)
Definition StringSlice := option loc.

(** [*Disconnect]: nil or an address. *)
Definition DisconnectPtr := option loc.

(** ** Go errors *)

(** [Error] of a reply: the structured per-command server error. *)
Record ReplyError := mkReplyError {
  ErrCode : Z;
  ErrMessage : string;
}.

Inductive error :=
| ErrPipeEmpty                       (* doc.go: ErrPipeEmpty *)
| ErrMalformedResponse               (* doc.go: ErrMalformedResponse *)
| ErrStatusCode (Code : Z)           (* doc.go: ErrStatusCode{Code} *)
| ServerError (e : ReplyError)       (* a Reply's *Error used as an error *)
| JSONError (msg : string)           (* an encoding/json error *)
| TransportError (msg : string)      (* net/http, url or resolver errors *)
| ErrIndexOutOfRange.                (* the runtime panic of result[0] *)

(** ** options.go *)

Module PublishOptions.
Record t := mk { SkipHistory : bool }.
Definition zero : t := mk false.
End PublishOptions.

Definition PublishOption := PublishOptions.t -> PublishOptions.t.

Definition WithSkipHistory (skip : bool) : PublishOption :=
  fun opts => PublishOptions.mk skip.

Module SubscribeOptions.
Record t := mk {
    Info : RawMessage;
    Presence : bool;
    JoinLeave : bool;
    Position : bool;
    Recover : bool;
    Data : RawMessage;
    RecoverSince : StreamPositionPtr;
    ClientID : string;
  }.
Definition zero : t := mk None false false false false None None "".
End SubscribeOptions.

Definition SubscribeOption := SubscribeOptions.t -> SubscribeOptions.t.

Import SubscribeOptions.

Definition WithSubscribeInfo (chanInfo : RawMessage) : SubscribeOption :=
  fun o => SubscribeOptions.mk chanInfo (Presence o) (JoinLeave o) (Position o)
             (Recover o) (Data o) (RecoverSince o) (ClientID o).

Definition WithPresence (enabled : bool) : SubscribeOption :=
  fun o => SubscribeOptions.mk (Info o) enabled (JoinLeave o) (Position o)
             (Recover o) (Data o) (RecoverSince o) (ClientID o).

Definition WithJoinLeave (enabled : bool) : SubscribeOption :=
  fun o => SubscribeOptions.mk (Info o) (Presence o) enabled (Position o)
             (Recover o) (Data o) (RecoverSince o) (ClientID o).

Definition WithPosition (enabled : bool) : SubscribeOption :=
  fun o => SubscribeOptions.mk (Info o) (Presence o) (JoinLeave o) enabled
             (Recover o) (Data o) (RecoverSince o) (ClientID o).

Definition WithRecover (enabled : bool) : SubscribeOption :=
  fun o => SubscribeOptions.mk (Info o) (Presence o) (JoinLeave o) (Position o)
             enabled (Data o) (RecoverSince o) (ClientID o).

Definition WithSubscribeClient (clientID : string) : SubscribeOption :=
  fun o => SubscribeOptions.mk (Info o) (Presence o) (JoinLeave o) (Position o)
             (Recover o) (Data o) (RecoverSince o) clientID.

Definition WithSubscribeData (data : RawMessage) : SubscribeOption :=
  fun o => SubscribeOptions.mk (Info o) (Presence o) (JoinLeave o) (Position o)
             (Recover o) data (RecoverSince o) (ClientID o).

Definition WithRecoverSince (since : StreamPositionPtr) : SubscribeOption :=
  fun o => SubscribeOptions.mk (Info o) (Presence o) (JoinLeave o) (Position o)
             (Recover o) (Data o) since (ClientID o).

Module UnsubscribeOptions.
Record t := mk { ClientID : string }.
Definition zero : t := mk "".
End UnsubscribeOptions.

Definition UnsubscribeOption := UnsubscribeOptions.t -> UnsubscribeOptions.t.

Definition WithUnsubscribeClient (clientID : string) : UnsubscribeOption :=
  fun o => UnsubscribeOptions.mk clientID.

Module DisconnectOptions.
Record t := mk {
    Disconnect : DisconnectPtr;
    ClientWhitelist : StringSlice;
    ClientID : string;
  }.
Definition zero : t := mk None None "".
End DisconnectOptions.

Definition DisconnectOption := DisconnectOptions.t -> DisconnectOptions.t.

Definition WithDisconnect (disconnect : DisconnectPtr) : DisconnectOption :=
  fun o => DisconnectOptions.mk disconnect (DisconnectOptions.ClientWhitelist o)
             (DisconnectOptions.ClientID o).

Definition WithDisconnectClient (clientID : string) : DisconnectOption :=
  fun o => DisconnectOptions.mk (DisconnectOptions.Disconnect o)
             (DisconnectOptions.ClientWhitelist o) clientID.

Definition WithDisconnectClientWhitelist (whitelist : StringSlice) : DisconnectOption :=
  fun o => DisconnectOptions.mk (DisconnectOptions.Disconnect o) whitelist
             (DisconnectOptions.ClientID o).

Module HistoryOptions.
Record t := mk {
    Since : StreamPositionPtr;
    Limit : Z;
    Reverse : bool;
  }.
Definition zero : t := mk None 0 false.
End HistoryOptions.

Definition HistoryOption := HistoryOptions.t -> HistoryOptions.t.

Definition NoLimit : Z := -1.

Definition WithLimit (limit : Z) : HistoryOption :=
  fun o => HistoryOptions.mk (HistoryOptions.Since o) limit (HistoryOptions.Reverse o).

Definition WithSince (sp : StreamPositionPtr) : HistoryOption :=
  fun o => HistoryOptions.mk sp (HistoryOptions.Limit o) (HistoryOptions.Reverse o).

Definition WithReverse (reverse : bool) : HistoryOption :=
  fun o => HistoryOptions.mk (HistoryOptions.Since o) (HistoryOptions.Limit o) reverse.

Module ChannelsOptions.
Record t := mk { Pattern : string }.
Definition zero : t := mk "".
End ChannelsOptions.

Definition ChannelsOption := ChannelsOptions.t -> ChannelsOptions.t.

Definition WithPattern (pattern : string) : ChannelsOption :=
  fun o => ChannelsOptions.mk pattern.

(** [for _, opt := range opts { opt(options) }] on a fresh zero record. *)
Definition apply_opts {O : Type} (zero : O) (opts : list (O -> O)) : O :=
  fold_left (fun o opt => opt o) opts zero.

(** ** Request payloads and the command envelope (pipe.go, current revision) *)

Record PublishRequest := mkPublishRequest {
  pubChannel : string;
  pubData : RawMessage;
  pubOptions : PublishOptions.t;          (* embedded PublishOptions *)
}.

Record broadcastRequest := mkBroadcastRequest {
  bcChannels : StringSlice;
  bcData : RawMessage;
  bcOptions : PublishOptions.t;
}.

Record subscribeRequest := mkSubscribeRequest {
  subChannel : string;
  subUser : string;
  subOptions : SubscribeOptions.t;        (* embedded SubscribeOptions *)
}.

Record unsubscribeRequest := mkUnsubscribeRequest {
  unsubChannel : string;
  unsubUser : string;
  unsubOptions : UnsubscribeOptions.t;
}.

Record disconnectRequest := mkDisconnectRequest {
  discUser : string;
  discOptions : DisconnectOptions.t;
}.

Record historyRequest := mkHistoryRequest {
  histChannel : string;
  histOptions : HistoryOptions.t;
}.

Record channelsRequest := mkChannelsRequest {
  chPattern : string;
}.

(** The value stored in [Command.Params]: one case per payload the [Add*]
    operations store there; [map[string]interface{}] payloads are kept as
    their list of entries. *)
Inductive Params :=
| PPublish (r : PublishRequest)
| PBroadcast (r : broadcastRequest)
| PSubscribe (r : subscribeRequest)
| PUnsubscribe (r : unsubscribeRequest)
| PDisconnect (r : disconnectRequest)
| PHistory (r : historyRequest)
| PChannels (r : channelsRequest)
| PMap (m : list (string * string)).

(** [Command] of protocol.go: [UID], [Method] and [Params]. *)
Record Command := mkCommand {
  UID : string;
  Method : string;
  CParams : Params;
}.

(** [Command{Method: m, Params: ps}]: the UID keeps its zero value. *)
Definition command (m : string) (ps : Params) : Command := mkCommand "" m ps.

(** ** Pipe *)

Record Pipe := mkPipe { commands : list Command }.

(** [Client.Pipe()] *)
Definition NewPipe : Pipe := mkPipe [].

Module Pipe.

(** [func (p *Pipe) Reset()]: [p.commands = nil]. *)
Definition Reset (p : Pipe) : Pipe := mkPipe [].

(** [func (p *Pipe) add(cmd Command) error] *)
Definition add (cmd : Command) (p : Pipe) : Pipe * option error :=
  (mkPipe (commands p ++ [cmd]), None).

(** [func (p *Pipe) addMany(commands []Command) error] *)
Definition addMany (cmds : list Command) (p : Pipe) : Pipe * option error :=
  (mkPipe (commands p ++ cmds), None).

Definition AddPublish (channel : string) (data : RawMessage)
    (opts : list PublishOption) (p : Pipe) : Pipe * option error :=
  let options := apply_opts PublishOptions.zero opts in
  let cmd := command "publish" (PPublish (mkPublishRequest channel data options)) in
  add cmd p.

(** The loop [commands = append(commands, Command{...})] over the requests. *)
Definition AddPublishRequests (requests : list PublishRequest) (p : Pipe)
    : Pipe * option error :=
  let cmds := fold_left (fun acc request => acc ++ [command "publish" (PPublish request)])
                requests [] in
  addMany cmds p.

Definition AddBroadcast (channels : StringSlice) (data : RawMessage)
    (opts : list PublishOption) (p : Pipe) : Pipe * option error :=
  let options := apply_opts PublishOptions.zero opts in
  let cmd := command "broadcast" (PBroadcast (mkBroadcastRequest channels data options)) in
  add cmd p.

Definition AddSubscribe (channel user : string) (opts : list SubscribeOption)
    (p : Pipe) : Pipe * option error :=
  let options := apply_opts SubscribeOptions.zero opts in
  let cmd := command "subscribe" (PSubscribe (mkSubscribeRequest channel user options)) in
  add cmd p.

Definition AddUnsubscribe (channel user : string) (opts : list UnsubscribeOption)
    (p : Pipe) : Pipe * option error :=
  let options := apply_opts UnsubscribeOptions.zero opts in
  let cmd := command "unsubscribe"
               (PUnsubscribe (mkUnsubscribeRequest channel user options)) in
  add cmd p.

Definition AddDisconnect (user : string) (opts : list DisconnectOption) (p : Pipe)
    : Pipe * option error :=
  let options := apply_opts DisconnectOptions.zero opts in
  let cmd := command "disconnect" (PDisconnect (mkDisconnectRequest user options)) in
  add cmd p.

Definition AddPresence (channel : string) (p : Pipe) : Pipe * option error :=
  add (command "presence" (PMap [("channel", channel)])) p.

Definition AddPresenceStats (channel : string) (p : Pipe) : Pipe * option error :=
  add (command "presence_stats" (PMap [("channel", channel)])) p.

Definition AddHistory (channel : string) (opts : list HistoryOption) (p : Pipe)
    : Pipe * option error :=
  let options := apply_opts HistoryOptions.zero opts in
  let cmd := command "history" (PHistory (mkHistoryRequest channel options)) in
  add cmd p.

Definition AddHistoryRemove (channel : string) (p : Pipe) : Pipe * option error :=
  add (command "history_remove" (PMap [("channel", channel)])) p.

Definition AddChannels (opts : list ChannelsOption) (p : Pipe) : Pipe * option error :=
  let options := apply_opts ChannelsOptions.zero opts in
  let cmd := command "channels" (PChannels (mkChannelsRequest (ChannelsOptions.Pattern options))) in
  add cmd p.

Definition AddInfo (p : Pipe) : Pipe * option error :=
  add (command "info" (PMap [])) p.

End Pipe.

(** The v3.1 revision of [Pipe.AddSubscribe], [src/pipe.go] lines 82-98. *)
Module PipeV31.

Definition AddSubscribe (channel user : string) (opts : list SubscribeOption)
    (p : Pipe) : Pipe * option error :=
  let options := apply_opts SubscribeOptions.zero opts in
  let cmd := command "unsubscribe" (PSubscribe (mkSubscribeRequest channel user options)) in
  Pipe.add cmd p.

End PipeV31.

(** ** Replies *)

(** Modelled from the spec: the [Reply] type of the current protocol.go is
    not in src/ (the protocol.go there is an older revision). Section 3 of the
    spec: a reply is an optional structured error (code and message) and an
    opaque result payload, kept here as its raw JSON text. *)
Record Reply := mkReply {
  RError : option ReplyError;     (* Error *Error *)
  RResult : string;               (* Result json.RawMessage *)
}.

(** One JSON value of a response stream as [json.Decoder.Decode] reads it into
    a [Reply]: a value that decodes, or one that fails to (bad syntax, wrong
    shape, truncated input); the end of the list is [io.EOF]. *)
Inductive json_value :=
| JReply (r : Reply)
| JInvalid (msg : string).

(** ** HTTP *)

Record Request := mkRequest {
  ReqMethod : string;
  URL : string;
  Header : list (string * string);
  Body : string;
}.

Record Response := mkResponse {
  StatusCode : Z;
  RespBody : list json_value;
}.

(** [req.Header.Set(k, v)] *)
Definition header_set (k v : string) (h : list (string * string)) :=
  filter (fun kv => kv.1 <> k) h ++ [(k, v)].

Definition set_header (k v : string) (req : Request) : Request :=
  mkRequest (ReqMethod req) (URL req) (header_set k v (Header req)) (Body req).

(** [req.Header.Add(k, v)] *)
Definition add_header (k v : string) (req : Request) : Request :=
  mkRequest (ReqMethod req) (URL req) (Header req ++ [(k, v)]) (Body req).

(** ** Effects: the endpoint resolver and the HTTP client *)

Inductive io (A : Type) : Type :=
| Ret (a : A)
| CallGetEndpoint (k : string + error -> io A)            (* c.getEndpoint() *)
| HTTPDo (req : Request) (k : Response + error -> io A).   (* c.httpClient.Do(req) *)

Arguments Ret {A} a.
Arguments CallGetEndpoint {A} k.
Arguments HTTPDo {A} req k.

Fixpoint io_bind {A B : Type} (t : io A) (f : A -> io B) : io B :=
  match t with
  | Ret a => f a
  | CallGetEndpoint k => CallGetEndpoint (fun r => io_bind (k r) f)
  | HTTPDo req k => HTTPDo req (fun r => io_bind (k r) f)
  end.

Global Instance io_mret : MRet io := @Ret.
Global Instance io_mbind : MBind io := fun A B f t => io_bind t f.

(** What the outside world answers: the resolver's result and the HTTP
    client's answer to a request. *)
Record Env := mkEnv {
  env_endpoint : string + error;
  env_http : Request -> Response + error;
}.

(** One network call: the request sent and what came back. *)
Definition exchange := (Request * (Response + error))%type.

(** Runs a computation against an environment and records every HTTP call. *)
Fixpoint run {A : Type} (env : Env) (t : io A) : A * list exchange :=
  match t with
  | Ret a => (a, [])
  | CallGetEndpoint k => run env (k (env_endpoint env))
  | HTTPDo req k =>
      let r := env_http env req in
      let '(a, tr) := run env (k r) in (a, (req, r) :: tr)
  end.

(** ** The client (doc.go) *)

Record Client := mkClient {
  endpoint : string;
  getEndpoint : bool;       (* whether Config.GetAddr was set *)
  apiKey : string;
}.

Section Transport.

(** [json.Marshal] of one command as the encoder sees it at send time. *)
Variable Marshal : Command -> string + error.

(** The verdict of net/url on an endpoint: [Some e] when it does not parse. *)
Variable url_error : string -> option error.

(** [http.NewRequest(method, url, body)] *)
Definition NewRequest (method url : string) (body : string) : Request + error :=
  match url_error url with
  | Some e => inr e
  | None => inl (mkRequest method url [] body)
  end.

(** [enc.Encode(cmd)] for each command: the marshalled value and a newline
    are written to [buf]; the first failure aborts. *)
Fixpoint encode_all (cmds : list Command) (buf : string) : string + error :=
  match cmds with
  | [] => inl buf
  | cmd :: rest =>
      match Marshal cmd with
      | inr e => inr e
      | inl s => encode_all rest (buf +:+ s +:+ "
")
      end
  end.

(** The [for { dec.Decode(&rep) ... }] loop over the response body. *)
Fixpoint decode_loop (vs : list json_value) (replies : list Reply)
    : list Reply * option error :=
  match vs with
  | [] => (replies, None)                      (* io.EOF: break *)
  | JInvalid m :: _ => ([], Some (JSONError m))
  | JReply rep :: rest => decode_loop rest (replies ++ [rep])
  end.

(** The tail of [send] after [httpClient.Do]: a transport error, a non-200
    status, or the decoded reply stream. *)
Definition handle_response (r : Response + error) : list Reply * option error :=
  match r with
  | inr e => ([], Some e)
  | inl resp =>
      if bool_decide (StatusCode resp <> 200)
      then ([], Some (ErrStatusCode (StatusCode resp)))
      else decode_loop (RespBody resp) []
  end.

(** The rest of [send] once the endpoint is known: build the POST request
    with its headers, run it and handle the response. *)
Definition post (c : Client) (buf : string) (endpoint : string)
    : io (list Reply * option error) :=
  match NewRequest "POST" endpoint buf with
  | inr e => Ret ([], Some e)
  | inl req =>
      let req := if bool_decide (apiKey c = "") then req
                 else set_header "Authorization" ("apikey " +:+ apiKey c) req in
      let req := set_header "Content-Type" "application/json" req in
      HTTPDo req (fun r => Ret (handle_response r))
  end.

(** [func (c *Client) send(ctx, commands []Command) ([]Reply, error)]. The
    final [return replies, err] returns the [err] of [httpClient.Do], nil on
    that path. *)
Definition send (c : Client) (cmds : list Command) : io (list Reply * option error) :=
  match encode_all cmds "" with
  | inr e => Ret ([], Some e)
  | inl buf =>
      if getEndpoint c
      then CallGetEndpoint (fun r =>
             match r with
             | inr e => Ret ([], Some e)
             | inl e => post c buf e
             end)
      else post c buf (endpoint c)
  end.

(** [func (c *Client) SendPipe(ctx, pipe *Pipe) ([]Reply, error)]; the pipe
    the pointer refers to is threaded through. *)
Definition SendPipe (c : Client) (pipe : Pipe)
    : io (Pipe * (list Reply * option error)) :=
  if bool_decide (length (commands pipe) = 0%nat)
  then Ret (pipe, ([], Some ErrPipeEmpty))
  else
    '(result, err) ← send c (commands pipe);
    match err with
    | Some e => Ret (pipe, ([], Some e))
    | None =>
        if bool_decide (length result <> length (commands pipe))
        then Ret (pipe, ([], Some ErrMalformedResponse))
        else Ret (pipe, (result, None))
    end.

End Transport.

(** ** Single-command operations (doc.go) *)

Section Wrappers.

Variable Marshal : Command -> string + error.
Variable url_error : string -> option error.

(** The typed results of publish and history and their zero values; the
    result types are not in src/, nothing here depends on their fields. *)
Variables PublishResult HistoryResult : Type.
Variable PublishResult_zero : PublishResult.
Variable HistoryResult_zero : HistoryResult.

(** [json.Unmarshal] of a result payload into the typed record; [inr msg]
    is the decoding error. *)
Variable UnmarshalPublish : string -> PublishResult + string.
Variable UnmarshalHistory : string -> HistoryResult + string.

Definition decodePublish (result : string) : PublishResult * option error :=
  match UnmarshalPublish result with
  | inr msg => (PublishResult_zero, Some (JSONError msg))
  | inl r => (r, None)
  end.

Definition decodeHistory (result : string) : HistoryResult * option error :=
  match UnmarshalHistory result with
  | inr msg => (HistoryResult_zero, Some (JSONError msg))
  | inl r => (r, None)
  end.

(** [func (c *Client) Publish(ctx, channel, data, opts...) (PublishResult, error)].
    [result[0]] on an empty slice is a runtime panic, [ErrIndexOutOfRange]. *)
Definition Publish (c : Client) (channel : string) (data : RawMessage)
    (opts : list PublishOption) : io (PublishResult * option error) :=
  let '(pipe, err) := Pipe.AddPublish channel data opts NewPipe in
  match err with
  | Some e => Ret (PublishResult_zero, Some e)
  | None =>
      '(_, (result, err)) ← SendPipe Marshal url_error c pipe;
      match err with
      | Some e => Ret (PublishResult_zero, Some e)
      | None =>
          match result with
          | [] => Ret (PublishResult_zero, Some ErrIndexOutOfRange)
          | resp :: _ =>
              match RError resp with
              | Some e => Ret (PublishResult_zero, Some (ServerError e))
              | None => Ret (decodePublish (RResult resp))
              end
          end
      end
  end.

(** [func (c *Client) History(ctx, channel, opts...) (HistoryResult, error)] *)
Definition History (c : Client) (channel : string) (opts : list HistoryOption)
    : io (HistoryResult * option error) :=
  let '(pipe, err) := Pipe.AddHistory channel opts NewPipe in
  match err with
  | Some e => Ret (HistoryResult_zero, Some e)
  | None =>
      '(_, (result, err)) ← SendPipe Marshal url_error c pipe;
      match err with
      | Some e => Ret (HistoryResult_zero, Some e)
      | None =>
          match result with
          | [] => Ret (HistoryResult_zero, Some ErrIndexOutOfRange)
          | resp :: _ =>
              match RError resp with
              | Some e => Ret (HistoryResult_zero, Some (ServerError e))
              | None => Ret (decodeHistory (RResult resp))
              end
          end
      end
  end.

End Wrappers.

(** ** What a buffered command serializes *)

Definition deref_bytes (h : heap) (r : RawMessage) : option string :=
  match r with
  | None => None
  | Some l => match h !! l with Some (HBytes bs) => Some bs | _ => None end
  end.

Definition deref_position (h : heap) (p : StreamPositionPtr) : option StreamPosition :=
  match p with
  | None => None
  | Some l => match h !! l with Some (HStreamPosition sp) => Some sp | _ => None end
  end.

(** The fields of a [subscribeRequest] with its slices and pointers followed
    in memory [h]: the value [json.Marshal] encodes at send time. *)
Record SubscribeParamsView := mkSubscribeParamsView {
  v_channel : string;
  v_user : string;
  v_info : option string;
  v_presence : bool;
  v_join_leave : bool;
  v_position : bool;
  v_recover : bool;
  v_data : option string;
  v_recover_since : option StreamPosition;
  v_client : string;
}.

Definition subscribe_view (h : heap) (r : subscribeRequest) : SubscribeParamsView :=
  let o := subOptions r in
  mkSubscribeParamsView (subChannel r) (subUser r) (deref_bytes h (Info o))
    (Presence o) (JoinLeave o) (Position o) (Recover o) (deref_bytes h (Data o))
    (deref_position h (RecoverSince o)) (ClientID o).

Definition deref_strings (h : heap) (s : StringSlice) : option (list string) :=
  match s with
  | None => None
  | Some l => match h !! l with Some (HStrings ss) => Some ss | _ => None end
  end.

Definition deref_disconnect (h : heap) (d : DisconnectPtr) : option Disconnect :=
  match d with
  | None => None
  | Some l => match h !! l with Some (HDisconnect v) => Some v | _ => None end
  end.

(** The params of a command with their slices and pointers followed in
    memory [h]: the value [json.Marshal] encodes at send time. *)
Inductive ParamsView :=
| VPublish (channel : string) (data : option string) (skip_history : bool)
| VBroadcast (channels : option (list string)) (data : option string) (skip_history : bool)
| VSubscribe (v : SubscribeParamsView)
| VUnsubscribe (channel user client : string)
| VDisconnect (user : string) (disconnect : option Disconnect)
    (client_whitelist : option (list string)) (client : string)
| VHistory (channel : string) (since : option StreamPosition) (limit : Z) (reverse : bool)
| VChannels (pattern : string)
| VMap (m : list (string * string)).

Definition command_view (h : heap) (cmd : Command) : ParamsView :=
  match CParams cmd with
  | PPublish r => VPublish (pubChannel r) (deref_bytes h (pubData r))
                    (PublishOptions.SkipHistory (pubOptions r))
  | PBroadcast r => VBroadcast (deref_strings h (bcChannels r)) (deref_bytes h (bcData r))
                      (PublishOptions.SkipHistory (bcOptions r))
  | PSubscribe r => VSubscribe (subscribe_view h r)
  | PUnsubscribe r => VUnsubscribe (unsubChannel r) (unsubUser r)
                        (UnsubscribeOptions.ClientID (unsubOptions r))
  | PDisconnect r =>
      let o := discOptions r in
      VDisconnect (discUser r) (deref_disconnect h (DisconnectOptions.Disconnect o))
        (deref_strings h (DisconnectOptions.ClientWhitelist o)) (DisconnectOptions.ClientID o)
  | PHistory r =>
      let o := histOptions r in
      VHistory (histChannel r) (deref_position h (HistoryOptions.Since o))
        (HistoryOptions.Limit o) (HistoryOptions.Reverse o)
  | PChannels r => VChannels (chPattern r)
  | PMap m => VMap m
  end.

(** The addresses a command's params refer to: its non-nil slices and
    pointers. *)
Definition opt_loc (r : option loc) : list loc :=
  match r with Some l => [l] | None => [] end.

Definition cmd_refs (cmd : Command) : list loc :=
  match CParams cmd with
  | PPublish r => opt_loc (pubData r)
  | PBroadcast r => opt_loc (bcChannels r) ++ opt_loc (bcData r)
  | PSubscribe r =>
      let o := subOptions r in
      opt_loc (Info o) ++ opt_loc (Data o) ++ opt_loc (RecoverSince o)
  | PDisconnect r =>
      let o := discOptions r in
      opt_loc (DisconnectOptions.Disconnect o) ++ opt_loc (DisconnectOptions.ClientWhitelist o)
  | PHistory r => opt_loc (HistoryOptions.Since (histOptions r))
  | PUnsubscribe _ | PChannels _ | PMap _ => []
  end.

(** The caller writes through a slice or pointer it kept: [copy(info, bs)]
    stores [HBytes bs] at the backing array of [info], [*sp = v] stores
    [HStreamPosition v], [channels[i] = c] stores the updated [HStrings],
    [*d = v] stores [HDisconnect v]. *)
Definition heap_store (l : loc) (obj : HeapObj) (h : heap) : heap := <[l := obj]> h.

(** ** The legacy buffered client (main.go) *)

Module Legacy.

(** [Command] of main.go. *)
Record Command := mkCommand {
  Method : string;
  Params : list (string * string);
}.

(** [[]Command]: [None] is the nil slice, [Some cs] a non-nil slice with
    elements [cs]. *)
Definition CommandSlice := option (list Command).

(** The elements of a slice, what [len] counts and [range] visits; a nil
    slice has none. *)
Definition elems (s : CommandSlice) : list Command :=
  match s with None => [] | Some cs => cs end.

Record Client := mkClient {
  Endpoint : string;
  Secret : string;
  Timeout : Z;
  cmds : CommandSlice;
}.

Section LegacySend.

Variable MarshalCommand : Command -> string + error.
Variable url_error : string -> option error.
(** [auth.GenerateApiSign(secret, data)] *)
Variable GenerateApiSign : string -> string -> string.
(** [resp.Status], the status line text. *)
Variable status_text : Z -> string.
(** [ioutil.ReadAll(resp.Body)]: the bytes read and the read error. *)
Variable ReadAll : Response -> string * option error.
(** [json.Unmarshal(body, &result)]: the [Result] it leaves and its error. *)
Variable UnmarshalResult : string -> list Reply * option error.

Fixpoint marshal_elems (cs : list Command) : list string + error :=
  match cs with
  | [] => inl []
  | c :: rest =>
      match MarshalCommand c with
      | inr e => inr e
      | inl s => match marshal_elems rest with
                 | inr e => inr e
                 | inl ss => inl (s :: ss)
                 end
      end
  end.

(** [json.Marshal(cmds)] of a [[]Command]: [null] for a nil slice, one JSON
    array otherwise. *)
Definition MarshalSlice (s : CommandSlice) : string + error :=
  match s with
  | None => inl "null"
  | Some cs =>
      match marshal_elems cs with
      | inr e => inr e
      | inl ss => inl ("[" +:+ String.concat "," ss +:+ "]")
      end
  end.

(** [func (c *Client) send(cmds []Command) (Result, error)] *)
Definition send (c : Client) (cs : CommandSlice) : io (list Reply * option error) :=
  match MarshalSlice cs with
  | inr e => Ret ([], Some e)
  | inl data =>
      match NewRequest url_error "POST" (Endpoint c) data with
      | inr e => Ret ([], Some e)
      | inl r =>
          let r := set_header "X-API-Sign" (GenerateApiSign (Secret c) data) r in
          let r := add_header "Content-Type" "application/json" r in
          HTTPDo r (fun x =>
            match x with
            | inr e => Ret ([], Some e)
            | inl resp =>
                if bool_decide (StatusCode resp <> 200)
                then Ret ([], Some (TransportError
                                     ("wrong status code: " +:+ status_text (StatusCode resp))))
                else
                  (* [body, err := ioutil.ReadAll(resp.Body)], then
                     [err = json.Unmarshal(body, &result)] overwrites [err]. *)
                  let '(body, _) := ReadAll resp in
                  Ret (UnmarshalResult body)
            end)
      end
  end.

(** [strings.TrimRight(s, cutset)]: the trailing characters of [s] that occur
    in [cutset] are dropped; all strings here are ASCII, where runes and
    bytes coincide. *)
Definition in_cutset (ch : Ascii.ascii) (cutset : string) : bool :=
  existsb (Ascii.eqb ch) (list_ascii_of_string cutset).

Fixpoint TrimRight (s cutset : string) : string :=
  match s with
  | EmptyString => EmptyString
  | String ch rest =>
      let r := TrimRight rest cutset in
      if bool_decide (r = EmptyString) && in_cutset ch cutset then EmptyString
      else String ch r
  end.

(** [strings.HasSuffix(s, suffix)]:
    [len(s) >= len(suffix) && s[len(s)-len(suffix):] == suffix]. *)
Definition HasSuffix (s suffix : string) : bool :=
  (String.length suffix <=? String.length s)%nat &&
  String.eqb (substring (String.length s - String.length suffix) (String.length suffix) s)
    suffix.

(** [func NewClient(addr, secret string, timeout time.Duration) *Client] *)
Definition NewClient (addr secret : string) (timeout : Z) : Client :=
  let addr := TrimRight addr "/" in
  let addr := if HasSuffix addr "/api" then addr else addr +:+ "/api" in
  let apiEndpoint := addr +:+ "/" in
  mkClient apiEndpoint secret timeout (Some []).

(** [func (c *Client) empty() bool] *)
Definition empty (c : Client) : bool := bool_decide (length (elems (cmds c)) = 0%nat).

(** [func (c *Client) Reset()]: [c.cmds = []Command{}]. *)
Definition Reset (c : Client) : Client :=
  mkClient (Endpoint c) (Secret c) (Timeout c) (Some []).

(** The common tail of the [Add*] methods:
    [c.cmds = append(c.cmds, cmd); return nil]; [append] to a nil slice
    allocates a non-nil one. *)
Definition append_cmd (cmd : Command) (c : Client) : Client * option error :=
  (mkClient (Endpoint c) (Secret c) (Timeout c) (Some (elems (cmds c) ++ [cmd])), None).

(** [AddPublish]: the params map holds the channel and the data, a
    [*json.RawMessage] that marshals as the JSON text [data]. *)
Definition AddPublish (channel data : string) (c : Client) : Client * option error :=
  append_cmd (mkCommand "publish" [("channel", channel); ("data", data)]) c.

Definition AddUnsubscribe (channel user : string) (c : Client) : Client * option error :=
  append_cmd (mkCommand "unsubscribe" [("channel", channel); ("user", user)]) c.

Definition AddDisconnect (user : string) (c : Client) : Client * option error :=
  append_cmd (mkCommand "disconnect" [("user", user)]) c.

Definition AddPresence (channel : string) (c : Client) : Client * option error :=
  append_cmd (mkCommand "presence" [("channel", channel)]) c.

Definition AddHistory (channel : string) (c : Client) : Client * option error :=
  append_cmd (mkCommand "history" [("channel", channel)]) c.

(** [func (c *Client) Send() (Result, error)]: the buffer is taken and
    replaced by an empty non-nil one ([c.cmds = []Command{}]) before [send]
    runs; main.go's own [ErrMalformedResponse] is [ErrMalformedResponse]. *)
Definition Send (c : Client) : io (Client * (list Reply * option error)) :=
  let cs := cmds c in
  let c := mkClient (Endpoint c) (Secret c) (Timeout c) (Some []) in
  '(result, err) ← send c cs;
  match err with
  | Some e => Ret (c, ([], Some e))
  | None =>
      if bool_decide (length result <> length (elems cs))
      then Ret (c, ([], Some ErrMalformedResponse))
      else Ret (c, (result, None))
  end.

End LegacySend.

End Legacy.

(** ** Decorators as field setters

    Each decorator of options.go is named by a value of a small inductive
    ([XDecorator]); [x_denote] gives the decorator itself, [x_field] the field
    it writes and [x_value] the value it writes there. [x_get] reads a field. *)

Definition sets_one_field {O F V D : Type} (get : F -> O -> V) (denote : D -> O -> O)
    (field : D -> F) (value : D -> V) : Prop :=
  forall d o, get (field d) (denote d o) = value d /\
              forall g, g <> field d -> get g (denote d o) = get g o.

Definition fields_determine {O F V : Type} (get : F -> O -> V) : Prop :=
  forall o1 o2, (forall g, get g o1 = get g o2) -> o1 = o2.

(** The value of field [f] after the decorators [ds]: the one written by the
    last decorator of [ds] that writes [f], [dflt] when none does. *)
Definition last_write_value {F V D : Type} `{EqDecision F} (field : D -> F)
    (value : D -> V) (f : F) (ds : list D) (dflt : V) : V :=
  fold_left (fun acc d => if decide (field d = f) then value d else acc) ds dflt.

Definition decorator_laws {O F V D : Type} `{EqDecision F} (get : F -> O -> V)
    (denote : D -> O -> O) (field : D -> F) (value : D -> V) : Prop :=
  sets_one_field get denote field value /\
  (forall d o, denote d (denote d o) = denote d o) /\
  (forall d1 d2 o, field d1 = field d2 -> denote d2 (denote d1 o) = denote d2 o) /\
  (forall ds z f, get f (apply_opts z (map denote ds))
                  = last_write_value field value f ds (get f z)).

(** PublishOptions *)
Inductive PublishField := FSkipHistory.
Inductive PublishDecorator := DSkipHistory (skip : bool).

Definition pub_get (f : PublishField) (o : PublishOptions.t) : bool :=
  PublishOptions.SkipHistory o.
Definition pub_denote (d : PublishDecorator) : PublishOption :=
  match d with DSkipHistory b => WithSkipHistory b end.
Definition pub_field (d : PublishDecorator) : PublishField := FSkipHistory.
Definition pub_value (d : PublishDecorator) : bool :=
  match d with DSkipHistory b => b end.

(** SubscribeOptions *)
Inductive SubscribeField :=
| FInfo | FPresence | FJoinLeave | FPosition | FRecover | FData | FRecoverSince
| FSubscribeClient.

Inductive SubscribeValue :=
| SVRaw (r : RawMessage)
| SVBool (b : bool)
| SVPosition (p : StreamPositionPtr)
| SVString (s : string).

Inductive SubscribeDecorator :=
| DSubscribeInfo (chanInfo : RawMessage)
| DPresence (enabled : bool)
| DJoinLeave (enabled : bool)
| DPosition (enabled : bool)
| DRecover (enabled : bool)
| DSubscribeClient (clientID : string)
| DSubscribeData (data : RawMessage)
| DRecoverSince (since : StreamPositionPtr).

Definition sub_get (f : SubscribeField) (o : SubscribeOptions.t) : SubscribeValue :=
  match f with
  | FInfo => SVRaw (Info o)
  | FPresence => SVBool (Presence o)
  | FJoinLeave => SVBool (JoinLeave o)
  | FPosition => SVBool (Position o)
  | FRecover => SVBool (Recover o)
  | FData => SVRaw (Data o)
  | FRecoverSince => SVPosition (RecoverSince o)
  | FSubscribeClient => SVString (ClientID o)
  end.

Definition sub_denote (d : SubscribeDecorator) : SubscribeOption :=
  match d with
  | DSubscribeInfo v => WithSubscribeInfo v
  | DPresence v => WithPresence v
  | DJoinLeave v => WithJoinLeave v
  | DPosition v => WithPosition v
  | DRecover v => WithRecover v
  | DSubscribeClient v => WithSubscribeClient v
  | DSubscribeData v => WithSubscribeData v
  | DRecoverSince v => WithRecoverSince v
  end.

Definition sub_field (d : SubscribeDecorator) : SubscribeField :=
  match d with
  | DSubscribeInfo _ => FInfo
  | DPresence _ => FPresence
  | DJoinLeave _ => FJoinLeave
  | DPosition _ => FPosition
  | DRecover _ => FRecover
  | DSubscribeClient _ => FSubscribeClient
  | DSubscribeData _ => FData
  | DRecoverSince _ => FRecoverSince
  end.

Definition sub_value (d : SubscribeDecorator) : SubscribeValue :=
  match d with
  | DSubscribeInfo v => SVRaw v
  | DPresence v => SVBool v
  | DJoinLeave v => SVBool v
  | DPosition v => SVBool v
  | DRecover v => SVBool v
  | DSubscribeClient v => SVString v
  | DSubscribeData v => SVRaw v
  | DRecoverSince v => SVPosition v
  end.

(** UnsubscribeOptions *)
Inductive UnsubscribeField := FUnsubscribeClient.
Inductive UnsubscribeDecorator := DUnsubscribeClient (clientID : string).

Definition unsub_get (f : UnsubscribeField) (o : UnsubscribeOptions.t) : string :=
  UnsubscribeOptions.ClientID o.
Definition unsub_denote (d : UnsubscribeDecorator) : UnsubscribeOption :=
  match d with DUnsubscribeClient v => WithUnsubscribeClient v end.
Definition unsub_field (d : UnsubscribeDecorator) : UnsubscribeField := FUnsubscribeClient.
Definition unsub_value (d : UnsubscribeDecorator) : string :=
  match d with DUnsubscribeClient v => v end.

(** DisconnectOptions *)
Inductive DisconnectField := FDisconnect | FDisconnectClient | FClientWhitelist.

Inductive DisconnectValue :=
| DVDisconnect (d : DisconnectPtr)
| DVString (s : string)
| DVList (l : StringSlice).

Inductive DisconnectDecorator :=
| DDisconnect (disconnect : DisconnectPtr)
| DDisconnectClient (clientID : string)
| DDisconnectClientWhitelist (whitelist : StringSlice).

Definition disc_get (f : DisconnectField) (o : DisconnectOptions.t) : DisconnectValue :=
  match f with
  | FDisconnect => DVDisconnect (DisconnectOptions.Disconnect o)
  | FDisconnectClient => DVString (DisconnectOptions.ClientID o)
  | FClientWhitelist => DVList (DisconnectOptions.ClientWhitelist o)
  end.

Definition disc_denote (d : DisconnectDecorator) : DisconnectOption :=
  match d with
  | DDisconnect v => WithDisconnect v
  | DDisconnectClient v => WithDisconnectClient v
  | DDisconnectClientWhitelist v => WithDisconnectClientWhitelist v
  end.

Definition disc_field (d : DisconnectDecorator) : DisconnectField :=
  match d with
  | DDisconnect _ => FDisconnect
  | DDisconnectClient _ => FDisconnectClient
  | DDisconnectClientWhitelist _ => FClientWhitelist
  end.

Definition disc_value (d : DisconnectDecorator) : DisconnectValue :=
  match d with
  | DDisconnect v => DVDisconnect v
  | DDisconnectClient v => DVString v
  | DDisconnectClientWhitelist v => DVList v
  end.

(** HistoryOptions *)
Inductive HistoryField := FSince | FLimit | FReverse.

Inductive HistoryValue :=
| HVPosition (p : StreamPositionPtr)
| HVInt (z : Z)
| HVBool (b : bool).

Inductive HistoryDecorator :=
| DSince (sp : StreamPositionPtr)
| DLimit (limit : Z)
| DReverse (reverse : bool).

Definition hist_get (f : HistoryField) (o : HistoryOptions.t) : HistoryValue :=
  match f with
  | FSince => HVPosition (HistoryOptions.Since o)
  | FLimit => HVInt (HistoryOptions.Limit o)
  | FReverse => HVBool (HistoryOptions.Reverse o)
  end.

Definition hist_denote (d : HistoryDecorator) : HistoryOption :=
  match d with
  | DSince v => WithSince v
  | DLimit v => WithLimit v
  | DReverse v => WithReverse v
  end.

Definition hist_field (d : HistoryDecorator) : HistoryField :=
  match d with DSince _ => FSince | DLimit _ => FLimit | DReverse _ => FReverse end.

Definition hist_value (d : HistoryDecorator) : HistoryValue :=
  match d with
  | DSince v => HVPosition v
  | DLimit v => HVInt v
  | DReverse v => HVBool v
  end.

(** ChannelsOptions *)
Inductive ChannelsField := FPattern.
Inductive ChannelsDecorator := DPattern (pattern : string).

Definition chan_get (f : ChannelsField) (o : ChannelsOptions.t) : string :=
  ChannelsOptions.Pattern o.
Definition chan_denote (d : ChannelsDecorator) : ChannelsOption :=
  match d with DPattern v => WithPattern v end.
Definition chan_field (d : ChannelsDecorator) : ChannelsField := FPattern.
Definition chan_value (d : ChannelsDecorator) : string :=
  match d with DPattern v => v end.

Global Instance PublishField_eq_dec : EqDecision PublishField.
Proof. solve_decision. Defined.
Global Instance SubscribeField_eq_dec : EqDecision SubscribeField.
Proof. solve_decision. Defined.
Global Instance UnsubscribeField_eq_dec : EqDecision UnsubscribeField.
Proof. solve_decision. Defined.
Global Instance DisconnectField_eq_dec : EqDecision DisconnectField.
Proof. solve_decision. Defined.
Global Instance HistoryField_eq_dec : EqDecision HistoryField.
Proof. solve_decision. Defined.
Global Instance ChannelsField_eq_dec : EqDecision ChannelsField.
Proof. solve_decision. Defined.

(** ** More of the Pipe-based client (doc.go) *)

(** [Config] of doc.go. [GetAddr] is recorded by whether it is set, its
    answers come from the environment ([env_endpoint]); the HTTP client is the
    environment's [env_http]. *)
Record Config := mkConfig {
  Addr : string;
  GetAddr : bool;
  Key : string;
}.

(** [func New(c Config) *Client] *)
Definition New (cfg : Config) : Client := mkClient (Addr cfg) (GetAddr cfg) (Key cfg).

Section MoreWrappers.

Variable Marshal : Command -> string + error.
Variable url_error : string -> option error.

(** [func (c *Client) Subscribe(ctx, channel, user string, opts...) error] *)
Definition Subscribe (c : Client) (channel user : string) (opts : list SubscribeOption)
    : io (option error) :=
  let '(pipe, err) := Pipe.AddSubscribe channel user opts NewPipe in
  match err with
  | Some e => Ret (Some e)
  | None =>
      '(_, (result, err)) ← SendPipe Marshal url_error c pipe;
      match err with
      | Some e => Ret (Some e)
      | None =>
          match result with
          | [] => Ret (Some ErrIndexOutOfRange)
          | resp :: _ =>
              match RError resp with
              | Some e => Ret (Some (ServerError e))
              | None => Ret None
              end
          end
      end
  end.

End MoreWrappers.

(** The other single-command operations of doc.go. They live in a module of
    their own: [Presence], [Info] and [Disconnect] are also names of option
    fields and of the [Disconnect] record. *)
Module ClientOps.

Section Ops.

Variable Marshal : Command -> string + error.
Variable url_error : string -> option error.

(** The typed results, their zero values and [json.Unmarshal] into them; as
    for publish and history, nothing here depends on their fields. *)
Variables BroadcastResult PresenceResult PresenceStatsResult ChannelsResult InfoResult : Type.
Variable BroadcastResult_zero : BroadcastResult.
Variable PresenceResult_zero : PresenceResult.
Variable PresenceStatsResult_zero : PresenceStatsResult.
Variable ChannelsResult_zero : ChannelsResult.
Variable InfoResult_zero : InfoResult.
Variable UnmarshalBroadcast : string -> BroadcastResult + string.
Variable UnmarshalPresence : string -> PresenceResult + string.
Variable UnmarshalPresenceStats : string -> PresenceStatsResult + string.
Variable UnmarshalChannels : string -> ChannelsResult + string.
Variable UnmarshalInfo : string -> InfoResult + string.

Definition decodeBroadcast (result : string) : BroadcastResult * option error :=
  match UnmarshalBroadcast result with
  | inr msg => (BroadcastResult_zero, Some (JSONError msg))
  | inl r => (r, None)
  end.

Definition decodePresence (result : string) : PresenceResult * option error :=
  match UnmarshalPresence result with
  | inr msg => (PresenceResult_zero, Some (JSONError msg))
  | inl r => (r, None)
  end.

Definition decodePresenceStats (result : string) : PresenceStatsResult * option error :=
  match UnmarshalPresenceStats result with
  | inr msg => (PresenceStatsResult_zero, Some (JSONError msg))
  | inl r => (r, None)
  end.

Definition decodeChannels (result : string) : ChannelsResult * option error :=
  match UnmarshalChannels result with
  | inr msg => (ChannelsResult_zero, Some (JSONError msg))
  | inl r => (r, None)
  end.

Definition decodeInfo (result : string) : InfoResult * option error :=
  match UnmarshalInfo result with
  | inr msg => (InfoResult_zero, Some (JSONError msg))
  | inl r => (r, None)
  end.

(** [func (c *Client) Broadcast(ctx, channels, data, opts...) (BroadcastResult, error)] *)
Definition Broadcast (c : Client) (channels : StringSlice) (data : RawMessage) (opts : list PublishOption)
    : io (BroadcastResult * option error) :=
  let '(pipe, err) := Pipe.AddBroadcast channels data opts NewPipe in
  match err with
  | Some e => Ret (BroadcastResult_zero, Some e)
  | None =>
      '(_, (result, err)) ← SendPipe Marshal url_error c pipe;
      match err with
      | Some e => Ret (BroadcastResult_zero, Some e)
      | None =>
          match result with
          | [] => Ret (BroadcastResult_zero, Some ErrIndexOutOfRange)
          | resp :: _ =>
              match RError resp with
              | Some e => Ret (BroadcastResult_zero, Some (ServerError e))
              | None => Ret (decodeBroadcast (RResult resp))
              end
          end
      end
  end.

(** [func (c *Client) Presence(ctx, channel) (PresenceResult, error)] *)
Definition Presence (c : Client) (channel : string)
    : io (PresenceResult * option error) :=
  let '(pipe, err) := Pipe.AddPresence channel NewPipe in
  match err with
  | Some e => Ret (PresenceResult_zero, Some e)
  | None =>
      '(_, (result, err)) ← SendPipe Marshal url_error c pipe;
      match err with
      | Some e => Ret (PresenceResult_zero, Some e)
      | None =>
          match result with
          | [] => Ret (PresenceResult_zero, Some ErrIndexOutOfRange)
          | resp :: _ =>
              match RError resp with
              | Some e => Ret (PresenceResult_zero, Some (ServerError e))
              | None => Ret (decodePresence (RResult resp))
              end
          end
      end
  end.

(** [func (c *Client) PresenceStats(ctx, channel) (PresenceStatsResult, error)] *)
Definition PresenceStats (c : Client) (channel : string)
    : io (PresenceStatsResult * option error) :=
  let '(pipe, err) := Pipe.AddPresenceStats channel NewPipe in
  match err with
  | Some e => Ret (PresenceStatsResult_zero, Some e)
  | None =>
      '(_, (result, err)) ← SendPipe Marshal url_error c pipe;
      match err with
      | Some e => Ret (PresenceStatsResult_zero, Some e)
      | None =>
          match result with
          | [] => Ret (PresenceStatsResult_zero, Some ErrIndexOutOfRange)
          | resp :: _ =>
              match RError resp with
              | Some e => Ret (PresenceStatsResult_zero, Some (ServerError e))
              | None => Ret (decodePresenceStats (RResult resp))
              end
          end
      end
  end.

(** [func (c *Client) Channels(ctx, opts...) (ChannelsResult, error)] *)
Definition Channels (c : Client) (opts : list ChannelsOption)
    : io (ChannelsResult * option error) :=
  let '(pipe, err) := Pipe.AddChannels opts NewPipe in
  match err with
  | Some e => Ret (ChannelsResult_zero, Some e)
  | None =>
      '(_, (result, err)) ← SendPipe Marshal url_error c pipe;
      match err with
      | Some e => Ret (ChannelsResult_zero, Some e)
      | None =>
          match result with
          | [] => Ret (ChannelsResult_zero, Some ErrIndexOutOfRange)
          | resp :: _ =>
              match RError resp with
              | Some e => Ret (ChannelsResult_zero, Some (ServerError e))
              | None => Ret (decodeChannels (RResult resp))
              end
          end
      end
  end.

(** [func (c *Client) Info(ctx) (InfoResult, error)] *)
Definition Info (c : Client)
    : io (InfoResult * option error) :=
  let '(pipe, err) := Pipe.AddInfo NewPipe in
  match err with
  | Some e => Ret (InfoResult_zero, Some e)
  | None =>
      '(_, (result, err)) ← SendPipe Marshal url_error c pipe;
      match err with
      | Some e => Ret (InfoResult_zero, Some e)
      | None =>
          match result with
          | [] => Ret (InfoResult_zero, Some ErrIndexOutOfRange)
          | resp :: _ =>
              match RError resp with
              | Some e => Ret (InfoResult_zero, Some (ServerError e))
              | None => Ret (decodeInfo (RResult resp))
              end
          end
      end
  end.

(** [func (c *Client) Unsubscribe(ctx, channel, user, opts...) error] *)
Definition Unsubscribe (c : Client) (channel user : string) (opts : list UnsubscribeOption)
    : io (option error) :=
  let '(pipe, err) := Pipe.AddUnsubscribe channel user opts NewPipe in
  match err with
  | Some e => Ret (Some e)
  | None =>
      '(_, (result, err)) ← SendPipe Marshal url_error c pipe;
      match err with
      | Some e => Ret (Some e)
      | None =>
          match result with
          | [] => Ret (Some ErrIndexOutOfRange)
          | resp :: _ =>
              match RError resp with
              | Some e => Ret (Some (ServerError e))
              | None => Ret None
              end
          end
      end
  end.

(** [func (c *Client) HistoryRemove(ctx, channel) error] *)
Definition HistoryRemove (c : Client) (channel : string)
    : io (option error) :=
  let '(pipe, err) := Pipe.AddHistoryRemove channel NewPipe in
  match err with
  | Some e => Ret (Some e)
  | None =>
      '(_, (result, err)) ← SendPipe Marshal url_error c pipe;
      match err with
      | Some e => Ret (Some e)
      | None =>
          match result with
          | [] => Ret (Some ErrIndexOutOfRange)
          | resp :: _ =>
              match RError resp with
              | Some e => Ret (Some (ServerError e))
              | None => Ret None
              end
          end
      end
  end.

(** [func (c *Client) Disconnect(ctx, user, opts...) error] *)
Definition Disconnect (c : Client) (user : string) (opts : list DisconnectOption)
    : io (option error) :=
  let '(pipe, err) := Pipe.AddDisconnect user opts NewPipe in
  match err with
  | Some e => Ret (Some e)
  | None =>
      '(_, (result, err)) ← SendPipe Marshal url_error c pipe;
      match err with
      | Some e => Ret (Some e)
      | None =>
          match result with
          | [] => Ret (Some ErrIndexOutOfRange)
          | resp :: _ =>
              match RError resp with
              | Some e => Ret (Some (ServerError e))
              | None => Ret None
              end
          end
      end
  end.

End Ops.

End ClientOps.

(** What a single-command operation does with the one reply of a successful
    [SendPipe] of its pipe: a server error is returned with the zero result,
    a reply without error is decoded. *)
Definition reply_error_law {R : Type} (Marshal : Command -> string + error)
    (url_error : string -> option error) (env : Env) (c : Client) (pipe : Pipe)
    (op : io (R * option error)) (zero : R) (decode : string -> R * option error) : Prop :=
  forall pipe' resp,
    (run env (SendPipe Marshal url_error c pipe)).1 = (pipe', ([resp], None)) ->
    (forall e, RError resp = Some e -> (run env op).1 = (zero, Some (ServerError e))) /\
    (RError resp = None -> (run env op).1 = decode (RResult resp)).

(** The same for an operation that returns only an error. *)
Definition reply_error_law_unit (Marshal : Command -> string + error)
    (url_error : string -> option error) (env : Env) (c : Client) (pipe : Pipe)
    (op : io (option error)) : Prop :=
  forall pipe' resp,
    (run env (SendPipe Marshal url_error c pipe)).1 = (pipe', ([resp], None)) ->
    (forall e, RError resp = Some e -> (run env op).1 = Some (ServerError e)) /\
    (RError resp = None -> (run env op).1 = None).

(** * Properties *)

(** ** Small checks of the model *)

Example AddPublish_two :
  commands (Pipe.AddPublish "chat" (Some 2%N) []
              (Pipe.AddPublish "chat" (Some 1%N) [] NewPipe).1).1
  = [command "publish" (PPublish (mkPublishRequest "chat" (Some 1%N) PublishOptions.zero));
     command "publish" (PPublish (mkPublishRequest "chat" (Some 2%N) PublishOptions.zero))].
Proof. reflexivity. Qed.

Example decode_loop_three :
  decode_loop [JReply (mkReply None "{}"); JReply (mkReply None "[]")] []
  = ([mkReply None "{}"; mkReply None "[]"], None).
Proof. reflexivity. Qed.

Example decode_loop_bad :
  decode_loop [JReply (mkReply None "{}"); JInvalid "eof"] [] = ([], Some (JSONError "eof")).
Proof. reflexivity. Qed.

(** ** The effect monad *)

Lemma run_bind {A B : Type} (env : Env) (t : io A) (f : A -> io B) :
  run env (io_bind t f)
  = ((run env (f (run env t).1)).1, (run env t).2 ++ (run env (f (run env t).1)).2).
Proof.
  induction t as [a | k IH | req k IH]; simpl.
  - destruct (run env (f a)); reflexivity.
  - apply IH.
  - rewrite IH. destruct (run env (k (env_http env req))) as [a tr] eqn:E.
    simpl. destruct (run env (f a)). reflexivity.
Qed.

(** ** Pipe *)

(** [r] is [p] with one more command at its end and a nil error. *)
Definition appends_one (p : Pipe) (r : Pipe * option error) : Prop :=
  exists cmd, r.2 = None /\ commands r.1 = commands p ++ [cmd] /\
              length (commands r.1) = S (length (commands p)).

Lemma add_appends_one cmd p : appends_one p (Pipe.add cmd p).
Proof.
  exists cmd. simpl. rewrite length_app. simpl. split; [done|]. split; [done|]. lia.
Qed.

Lemma AddPublishRequests_loop (requests : list PublishRequest) (acc : list Command) :
  fold_left (fun acc request => acc ++ [command "publish" (PPublish request)]) requests acc
  = acc ++ map (fun r => command "publish" (PPublish r)) requests.
Proof.
  revert acc. induction requests as [|r rs IH]; intros acc; simpl.
  - by rewrite app_nil_r.
  - rewrite IH. by rewrite <- app_assoc.
Qed.

(** C1 (code_bug). The command appended by [AddSubscribe] and
    [AddUnsubscribe], at index [length (commands p)] of the new buffer: the
    current [Pipe.AddSubscribe] (pipe.go lines 335-351) gives it the method
    "subscribe" and [Pipe.AddUnsubscribe] the method "unsubscribe", but the
    [Pipe.AddSubscribe] of pipe.go lines 82-98 gives it the method
    "unsubscribe", like the unsubscribe operation. *)
Theorem AddSubscribe_method (channel user : string) (opts : list SubscribeOption)
    (uopts : list UnsubscribeOption) (p : Pipe) :
  option_map Method
    (commands (Pipe.AddSubscribe channel user opts p).1 !! length (commands p))
    = Some "subscribe" /\
  option_map Method
    (commands (Pipe.AddUnsubscribe channel user uopts p).1 !! length (commands p))
    = Some "unsubscribe" /\
  option_map Method
    (commands (PipeV31.AddSubscribe channel user opts p).1 !! length (commands p))
    = Some "unsubscribe".
Proof.
  unfold Pipe.AddSubscribe, Pipe.AddUnsubscribe, PipeV31.AddSubscribe, Pipe.add. simpl.
  rewrite !lookup_app_r, !Nat.sub_diag by lia. done.
Qed.

(** C2. Every [Add*] operation of the pipe returns a nil error and appends
    exactly one command at the end of the buffer, keeping the buffered ones;
    [AddPublishRequests] appends one publish command per request, in order. *)
Theorem Add_appends (channel user : string) (channels : StringSlice) (data : RawMessage)
    (popts : list PublishOption) (sopts : list SubscribeOption)
    (uopts : list UnsubscribeOption) (dopts : list DisconnectOption)
    (hopts : list HistoryOption) (copts : list ChannelsOption)
    (requests : list PublishRequest) (p : Pipe) :
  appends_one p (Pipe.AddPublish channel data popts p) /\
  appends_one p (Pipe.AddBroadcast channels data popts p) /\
  appends_one p (Pipe.AddSubscribe channel user sopts p) /\
  appends_one p (Pipe.AddUnsubscribe channel user uopts p) /\
  appends_one p (Pipe.AddDisconnect user dopts p) /\
  appends_one p (Pipe.AddPresence channel p) /\
  appends_one p (Pipe.AddPresenceStats channel p) /\
  appends_one p (Pipe.AddHistory channel hopts p) /\
  appends_one p (Pipe.AddHistoryRemove channel p) /\
  appends_one p (Pipe.AddChannels copts p) /\
  appends_one p (Pipe.AddInfo p) /\
  (Pipe.AddPublishRequests requests p).2 = None /\
  commands (Pipe.AddPublishRequests requests p).1
    = commands p ++ map (fun r => command "publish" (PPublish r)) requests /\
  length (commands (Pipe.AddPublishRequests requests p).1)
    = (length (commands p) + length requests)%nat.
Proof.
  repeat split; try apply add_appends_one;
    unfold Pipe.AddPublishRequests, Pipe.addMany; simpl;
    rewrite AddPublishRequests_loop; simpl; [done|].
  rewrite length_app, length_map. done.
Qed.

(** C3. [SendPipe] on a pipe with no commands, in particular right after
    [Reset], returns [ErrPipeEmpty] and no replies without any effect: no
    endpoint resolution and no HTTP call, whatever the environment. *)
Theorem SendPipe_empty (Marshal : Command -> string + error)
    (url_error : string -> option error) (c : Client) (p : Pipe)
    (Hempty : commands p = []) :
  SendPipe Marshal url_error c p = Ret (p, ([], Some ErrPipeEmpty)) /\
  (forall env, run env (SendPipe Marshal url_error c p)
               = ((p, ([], Some ErrPipeEmpty)), [])) /\
  (forall q, SendPipe Marshal url_error c (Pipe.Reset q)
             = Ret (Pipe.Reset q, ([], Some ErrPipeEmpty))).
Proof.
  unfold SendPipe. rewrite Hempty. simpl.
  repeat split; reflexivity.
Qed.

Lemma SendPipe_empty_witness :
  commands NewPipe = [] /\
  SendPipe (fun _ => inl "{}") (fun _ => None) (mkClient "http://localhost:8000/api" false "")
    NewPipe = Ret (NewPipe, ([], Some ErrPipeEmpty)).
Proof.
  split; [reflexivity|].
  apply (SendPipe_empty (fun _ => inl "{}") (fun _ => None)
           (mkClient "http://localhost:8000/api" false "") NewPipe eq_refl).
Defined.

(** ** send and SendPipe *)

Section SendFacts.

Variable Marshal : Command -> string + error.
Variable url_error : string -> option error.

Lemma set_header_Body k v req : Body (set_header k v req) = Body req.
Proof. reflexivity. Qed.

(** Every run of [send] either fails before any HTTP call, or makes exactly
    one POST whose body is the encoded buffer, and returns what
    [handle_response] makes of the answer. *)
Lemma send_exchanges (env : Env) (c : Client) (cmds : list Command) :
  ((run env (send Marshal url_error c cmds)).2 = [] /\
   exists e, (run env (send Marshal url_error c cmds)).1 = ([], Some e)) \/
  (exists req buf,
     encode_all Marshal cmds "" = inl buf /\ Body req = buf /\ ReqMethod req = "POST" /\
     run env (send Marshal url_error c cmds)
       = (handle_response (env_http env req), [(req, env_http env req)])).
Proof.
  unfold send.
  destruct (encode_all Marshal cmds "") as [buf | e] eqn:Henc.
  2:{ left. simpl. eauto. }
  assert (Hpost : forall ep,
    ((run env (post url_error c buf ep)).2 = [] /\
     exists e, (run env (post url_error c buf ep)).1 = ([], Some e)) \/
    (exists req, Body req = buf /\ ReqMethod req = "POST" /\
       run env (post url_error c buf ep)
       = (handle_response (env_http env req), [(req, env_http env req)]))).
  { intros ep. unfold post, NewRequest.
    destruct (url_error ep) as [e|].
    - left. simpl. eauto.
    - right. case_bool_decide; eexists _; simpl; repeat split; reflexivity. }
  destruct (getEndpoint c).
  - simpl. destruct (env_endpoint env) as [ep | e].
    + destruct (Hpost ep) as [H | (req & H1 & H2 & H3)]; [by left|].
      right. exists req, buf. done.
    + left. simpl. eauto.
  - destruct (Hpost (endpoint c)) as [H | (req & H1 & H2 & H3)]; [by left|].
    right. exists req, buf. done.
Qed.

(** [SendPipe] on a non-empty pipe runs [send] on its commands and then only
    inspects the outcome. *)
Lemma run_SendPipe (env : Env) (c : Client) (p : Pipe) :
  commands p <> [] ->
  run env (SendPipe Marshal url_error c p)
  = (let '(result, err) := (run env (send Marshal url_error c (commands p))).1 in
     match err with
     | Some e => (p, ([], Some e))
     | None =>
         if bool_decide (length result <> length (commands p))
         then (p, ([], Some ErrMalformedResponse))
         else (p, (result, None))
     end, (run env (send Marshal url_error c (commands p))).2).
Proof.
  intros Hne. unfold SendPipe.
  rewrite bool_decide_false by (destruct (commands p); simpl; [congruence | lia]).
  unfold mbind, io_mbind. rewrite run_bind.
  destruct (run env (send Marshal url_error c (commands p))) as [[result err] tr]. simpl.
  destruct err; [simpl; by rewrite app_nil_r|].
  case_bool_decide; simpl; by rewrite app_nil_r.
Qed.

End SendFacts.

Lemma run_SendPipe_pipe Marshal url_error env c p :
  (run env (SendPipe Marshal url_error c p)).1.1 = p.
Proof.
  destruct (decide (commands p = [])) as [He | Hne].
  - unfold SendPipe. rewrite He. reflexivity.
  - rewrite run_SendPipe by done. simpl.
    destruct (run env (send Marshal url_error c (commands p))) as [[result [e|]] tr]; simpl;
      [done|]. case_bool_decide; done.
Qed.

(** C4. For a non-empty pipe, when the one HTTP exchange of [SendPipe]
    answers 200 and its body decodes to a reply sequence whose length differs
    from the number of commands, [SendPipe] returns [ErrMalformedResponse]
    and no replies. *)
Theorem SendPipe_count_mismatch (Marshal : Command -> string + error)
    (url_error : string -> option error) (env : Env) (c : Client) (p : Pipe)
    out tr (req : Request) (resp : Response) (rs : list Reply) :
  commands p <> [] ->
  run env (SendPipe Marshal url_error c p) = (out, tr) ->
  In (req, inl resp) tr ->
  StatusCode resp = 200 ->
  decode_loop (RespBody resp) [] = (rs, None) ->
  length rs <> length (commands p) ->
  out = (p, ([], Some ErrMalformedResponse)).
Proof.
  intros Hne Hrun Hin Hst Hdec Hlen.
  rewrite run_SendPipe in Hrun by done.
  destruct (send_exchanges Marshal url_error env c (commands p))
    as [[Htr _] | (req' & buf & _ & _ & _ & Hsend)].
  - rewrite Htr in Hrun. injection Hrun as _ <-. done.
  - rewrite Hsend in Hrun. simpl in Hrun. injection Hrun as Hout <-.
    destruct Hin as [Heq | []]. injection Heq as -> Hresp.
    rewrite Hresp in Hout. simpl in Hout.
    rewrite bool_decide_false in Hout by lia. rewrite Hdec in Hout.
    rewrite bool_decide_true in Hout by done. by rewrite <- Hout.
Qed.

(** A client, a one-command pipe and a server that answers 200 with an empty
    reply stream. *)
Definition example_client : Client := mkClient "http://localhost:8000/api" false "".
Definition example_marshal (cmd : Command) : string + error := inl "{}".
Definition example_url_ok (u : string) : option error := None.
Definition env_answering (status : Z) (body : list json_value) : Env :=
  mkEnv (inl "http://localhost:8000/api") (fun _ => inl (mkResponse status body)).

Lemma SendPipe_count_mismatch_witness :
  (run (env_answering 200 []) (SendPipe example_marshal example_url_ok example_client
                                 (Pipe.AddInfo NewPipe).1)).1
  = ((Pipe.AddInfo NewPipe).1, ([], Some ErrMalformedResponse)).
Proof.
  eapply (SendPipe_count_mismatch example_marshal example_url_ok (env_answering 200 [])
            example_client (Pipe.AddInfo NewPipe).1 _
            (run (env_answering 200 []) (SendPipe example_marshal example_url_ok
                   example_client (Pipe.AddInfo NewPipe).1)).2
            _ (mkResponse 200 []) []).
  - simpl. discriminate.
  - apply surjective_pairing.
  - vm_compute. left. reflexivity.
  - reflexivity.
  - reflexivity.
  - simpl. lia.
Defined.

(** C9. When the HTTP exchange of [send] (and so of [SendPipe]) completes with
    a status other than 200, the call fails with [ErrStatusCode] carrying that
    status and returns no replies, whatever the body holds. *)
Theorem send_status_code (Marshal : Command -> string + error)
    (url_error : string -> option error) (env : Env) (c : Client) :
  (forall cmds out tr req resp,
     run env (send Marshal url_error c cmds) = (out, tr) ->
     In (req, inl resp) tr -> StatusCode resp <> 200 ->
     out = ([], Some (ErrStatusCode (StatusCode resp)))) /\
  (forall p out tr req resp,
     run env (SendPipe Marshal url_error c p) = (out, tr) ->
     In (req, inl resp) tr -> StatusCode resp <> 200 ->
     out = (p, ([], Some (ErrStatusCode (StatusCode resp))))).
Proof.
  assert (Hsend : forall cmds out tr req resp,
     run env (send Marshal url_error c cmds) = (out, tr) ->
     In (req, inl resp) tr -> StatusCode resp <> 200 ->
     out = ([], Some (ErrStatusCode (StatusCode resp)))).
  { intros cmds out tr req resp Hrun Hin Hst.
    destruct (send_exchanges Marshal url_error env c cmds)
      as [[Htr _] | (req' & buf & _ & _ & _ & Hsend)].
    - rewrite Hrun in Htr. simpl in Htr. subst tr. destruct Hin.
    - rewrite Hsend in Hrun. injection Hrun as <- <-.
      destruct Hin as [Heq | []]. injection Heq as -> Hresp.
      rewrite Hresp. simpl. by rewrite bool_decide_true. }
  split; [exact Hsend|].
  intros p out tr req resp Hrun Hin Hst.
  destruct (decide (commands p = [])) as [He | Hne].
  - unfold SendPipe in Hrun. rewrite He in Hrun. simpl in Hrun.
    injection Hrun as _ <-. destruct Hin.
  - rewrite run_SendPipe in Hrun by done.
    destruct (run env (send Marshal url_error c (commands p))) as [o tr'] eqn:E.
    simpl in Hrun. injection Hrun as Hout <-.
    rewrite (Hsend _ _ _ _ _ E Hin Hst) in Hout. by rewrite <- Hout.
Qed.

Lemma send_status_code_witness :
  (run (env_answering 503 [JReply (mkReply None "{}")])
       (SendPipe example_marshal example_url_ok example_client (Pipe.AddInfo NewPipe).1)).1
  = ((Pipe.AddInfo NewPipe).1, ([], Some (ErrStatusCode 503))).
Proof.
  eapply (proj2 (send_status_code example_marshal example_url_ok
                   (env_answering 503 [JReply (mkReply None "{}")]) example_client)
            (Pipe.AddInfo NewPipe).1 _
            (run (env_answering 503 [JReply (mkReply None "{}")])
               (SendPipe example_marshal example_url_ok example_client
                  (Pipe.AddInfo NewPipe).1)).2
            _ (mkResponse 503 [JReply (mkReply None "{}")])).
  - apply surjective_pairing.
  - vm_compute. left. reflexivity.
  - simpl. lia.
Defined.

(** C10. [SendPipe] leaves the pipe as it was, whatever the outcome, and
    sending the same pipe twice repeats the same exchanges: the trace of the
    second call is that of the first, and so is its result. *)
Theorem SendPipe_keeps_pipe (Marshal : Command -> string + error)
    (url_error : string -> option error) (env : Env) (c : Client) (p : Pipe) :
  (run env (SendPipe Marshal url_error c p)).1.1 = p /\
  run env (io_bind (SendPipe Marshal url_error c p)
                   (fun r => SendPipe Marshal url_error c r.1))
  = ((run env (SendPipe Marshal url_error c p)).1,
     (run env (SendPipe Marshal url_error c p)).2
       ++ (run env (SendPipe Marshal url_error c p)).2).
Proof.
  split; [apply run_SendPipe_pipe|].
  rewrite run_bind, run_SendPipe_pipe. reflexivity.
Qed.

(** ** Single-command operations *)

Section WrapperFacts.

Variable Marshal : Command -> string + error.
Variable url_error : string -> option error.
Variables PublishResult HistoryResult : Type.
Variable PublishResult_zero : PublishResult.
Variable HistoryResult_zero : HistoryResult.
Variable UnmarshalPublish : string -> PublishResult + string.
Variable UnmarshalHistory : string -> HistoryResult + string.
Variables BroadcastResult PresenceResult PresenceStatsResult ChannelsResult InfoResult : Type.
Variable BroadcastResult_zero : BroadcastResult.
Variable PresenceResult_zero : PresenceResult.
Variable PresenceStatsResult_zero : PresenceStatsResult.
Variable ChannelsResult_zero : ChannelsResult.
Variable InfoResult_zero : InfoResult.
Variable UnmarshalBroadcast : string -> BroadcastResult + string.
Variable UnmarshalPresence : string -> PresenceResult + string.
Variable UnmarshalPresenceStats : string -> PresenceStatsResult + string.
Variable UnmarshalChannels : string -> ChannelsResult + string.
Variable UnmarshalInfo : string -> InfoResult + string.

Ltac reply_error_case :=
  intros ?pipe' ?resp Hsend; simpl; unfold mbind, io_mbind; rewrite run_bind;
  simpl in Hsend |- *; rewrite Hsend; simpl;
  split; [intros ?e He; by rewrite He | intros He; by rewrite He].

(** C8. For every single-command operation of doc.go, [Publish], [History],
    [Broadcast], [Presence], [PresenceStats], [Channels] and [Info]: when
    [SendPipe] succeeds with the single reply [resp] and [resp] carries a
    server error [e], the operation returns [e] and the zero result, without
    looking at the result payload or the decoder; when [resp] carries no
    error, the operation returns the decoding of its payload; a decoding
    failure is a JSON error, never a server error. The operations with no
    result, [Subscribe], [Unsubscribe], [HistoryRemove] and [Disconnect],
    return [e] in the first case and nil in the second. *)
Theorem single_command_reply_error (env : Env) (c : Client) (channel user : string)
    (data : RawMessage) (channels : StringSlice) (popts : list PublishOption)
    (hopts : list HistoryOption) (copts : list ChannelsOption)
    (sopts : list SubscribeOption) (uopts : list UnsubscribeOption)
    (dopts : list DisconnectOption) :
  (forall pipe' resp,
     (run env (SendPipe Marshal url_error c (Pipe.AddPublish channel data popts NewPipe).1)).1
       = (pipe', ([resp], None)) ->
     (forall e, RError resp = Some e ->
        (run env (Publish Marshal url_error PublishResult PublishResult_zero
                    UnmarshalPublish c channel data popts)).1
          = (PublishResult_zero, Some (ServerError e))) /\
     (RError resp = None ->
        (run env (Publish Marshal url_error PublishResult PublishResult_zero
                    UnmarshalPublish c channel data popts)).1
          = decodePublish PublishResult PublishResult_zero UnmarshalPublish (RResult resp))) /\
  (forall pipe' resp,
     (run env (SendPipe Marshal url_error c (Pipe.AddHistory channel hopts NewPipe).1)).1
       = (pipe', ([resp], None)) ->
     (forall e, RError resp = Some e ->
        (run env (History Marshal url_error HistoryResult HistoryResult_zero
                    UnmarshalHistory c channel hopts)).1
          = (HistoryResult_zero, Some (ServerError e))) /\
     (RError resp = None ->
        (run env (History Marshal url_error HistoryResult HistoryResult_zero
                    UnmarshalHistory c channel hopts)).1
          = decodeHistory HistoryResult HistoryResult_zero UnmarshalHistory (RResult resp))) /\
  (forall payload msg, UnmarshalPublish payload = inr msg ->
     decodePublish PublishResult PublishResult_zero UnmarshalPublish payload
       = (PublishResult_zero, Some (JSONError msg)) /\
     forall e, JSONError msg <> ServerError e) /\
  (forall payload msg, UnmarshalHistory payload = inr msg ->
     decodeHistory HistoryResult HistoryResult_zero UnmarshalHistory payload
       = (HistoryResult_zero, Some (JSONError msg)) /\
     forall e, JSONError msg <> ServerError e) /\
  reply_error_law Marshal url_error env c (Pipe.AddBroadcast channels data popts NewPipe).1
    (ClientOps.Broadcast Marshal url_error BroadcastResult BroadcastResult_zero
       UnmarshalBroadcast c channels data popts)
    BroadcastResult_zero
    (ClientOps.decodeBroadcast BroadcastResult BroadcastResult_zero UnmarshalBroadcast) /\
  reply_error_law Marshal url_error env c (Pipe.AddPresence channel NewPipe).1
    (ClientOps.Presence Marshal url_error PresenceResult PresenceResult_zero
       UnmarshalPresence c channel)
    PresenceResult_zero
    (ClientOps.decodePresence PresenceResult PresenceResult_zero UnmarshalPresence) /\
  reply_error_law Marshal url_error env c (Pipe.AddPresenceStats channel NewPipe).1
    (ClientOps.PresenceStats Marshal url_error PresenceStatsResult PresenceStatsResult_zero
       UnmarshalPresenceStats c channel)
    PresenceStatsResult_zero
    (ClientOps.decodePresenceStats PresenceStatsResult PresenceStatsResult_zero
       UnmarshalPresenceStats) /\
  reply_error_law Marshal url_error env c (Pipe.AddChannels copts NewPipe).1
    (ClientOps.Channels Marshal url_error ChannelsResult ChannelsResult_zero
       UnmarshalChannels c copts)
    ChannelsResult_zero
    (ClientOps.decodeChannels ChannelsResult ChannelsResult_zero UnmarshalChannels) /\
  reply_error_law Marshal url_error env c (Pipe.AddInfo NewPipe).1
    (ClientOps.Info Marshal url_error InfoResult InfoResult_zero UnmarshalInfo c)
    InfoResult_zero
    (ClientOps.decodeInfo InfoResult InfoResult_zero UnmarshalInfo) /\
  (forall payload msg, UnmarshalBroadcast payload = inr msg ->
     ClientOps.decodeBroadcast BroadcastResult BroadcastResult_zero UnmarshalBroadcast payload
       = (BroadcastResult_zero, Some (JSONError msg))) /\
  (forall payload msg, UnmarshalPresence payload = inr msg ->
     ClientOps.decodePresence PresenceResult PresenceResult_zero UnmarshalPresence payload
       = (PresenceResult_zero, Some (JSONError msg))) /\
  (forall payload msg, UnmarshalPresenceStats payload = inr msg ->
     ClientOps.decodePresenceStats PresenceStatsResult PresenceStatsResult_zero
       UnmarshalPresenceStats payload
       = (PresenceStatsResult_zero, Some (JSONError msg))) /\
  (forall payload msg, UnmarshalChannels payload = inr msg ->
     ClientOps.decodeChannels ChannelsResult ChannelsResult_zero UnmarshalChannels payload
       = (ChannelsResult_zero, Some (JSONError msg))) /\
  (forall payload msg, UnmarshalInfo payload = inr msg ->
     ClientOps.decodeInfo InfoResult InfoResult_zero UnmarshalInfo payload
       = (InfoResult_zero, Some (JSONError msg))) /\
  reply_error_law_unit Marshal url_error env c (Pipe.AddSubscribe channel user sopts NewPipe).1
    (Subscribe Marshal url_error c channel user sopts) /\
  reply_error_law_unit Marshal url_error env c
    (Pipe.AddUnsubscribe channel user uopts NewPipe).1
    (ClientOps.Unsubscribe Marshal url_error c channel user uopts) /\
  reply_error_law_unit Marshal url_error env c (Pipe.AddHistoryRemove channel NewPipe).1
    (ClientOps.HistoryRemove Marshal url_error c channel) /\
  reply_error_law_unit Marshal url_error env c (Pipe.AddDisconnect user dopts NewPipe).1
    (ClientOps.Disconnect Marshal url_error c user dopts).
Proof.
  split; [|split; [|split; [|split]]].
  - intros pipe' resp Hsend. unfold Publish. simpl.
    unfold mbind, io_mbind. rewrite run_bind. simpl in Hsend |- *. rewrite Hsend. simpl.
    split; [intros e He; by rewrite He | intros He; by rewrite He].
  - intros pipe' resp Hsend. unfold History. simpl.
    unfold mbind, io_mbind. rewrite run_bind. simpl in Hsend |- *. rewrite Hsend. simpl.
    split; [intros e He; by rewrite He | intros He; by rewrite He].
  - intros payload msg H. unfold decodePublish. rewrite H. split; [done | discriminate].
  - intros payload msg H. unfold decodeHistory. rewrite H. split; [done | discriminate].
  - split; [unfold reply_error_law, ClientOps.Broadcast; reply_error_case|].
    split; [unfold reply_error_law, ClientOps.Presence; reply_error_case|].
    split; [unfold reply_error_law, ClientOps.PresenceStats; reply_error_case|].
    split; [unfold reply_error_law, ClientOps.Channels; reply_error_case|].
    split; [unfold reply_error_law, ClientOps.Info; reply_error_case|].
    split; [intros payload msg H; unfold ClientOps.decodeBroadcast; by rewrite H|].
    split; [intros payload msg H; unfold ClientOps.decodePresence; by rewrite H|].
    split; [intros payload msg H; unfold ClientOps.decodePresenceStats; by rewrite H|].
    split; [intros payload msg H; unfold ClientOps.decodeChannels; by rewrite H|].
    split; [intros payload msg H; unfold ClientOps.decodeInfo; by rewrite H|].
    split; [unfold reply_error_law_unit, Subscribe; reply_error_case|].
    split; [unfold reply_error_law_unit, ClientOps.Unsubscribe; reply_error_case|].
    split; [unfold reply_error_law_unit, ClientOps.HistoryRemove; reply_error_case|].
    unfold reply_error_law_unit, ClientOps.Disconnect; reply_error_case.
Qed.

End WrapperFacts.

Lemma single_command_reply_error_witness :
  (run (env_answering 200 [JReply (mkReply (Some (mkReplyError 102 "unknown channel")) "")])
       (Publish example_marshal example_url_ok nat 0%nat (fun _ => inl 1%nat)
          example_client "chat" None [])).1
  = (0%nat, Some (ServerError (mkReplyError 102 "unknown channel"))).
Proof.
  apply (proj1 (proj1 (single_command_reply_error example_marshal example_url_ok nat nat
                         0%nat 0%nat (fun _ => inl 1%nat) (fun _ => inl 1%nat)
                         nat nat nat nat nat 0%nat 0%nat 0%nat 0%nat 0%nat
                         (fun _ => inl 1%nat) (fun _ => inl 1%nat) (fun _ => inl 1%nat)
                         (fun _ => inl 1%nat) (fun _ => inl 1%nat)
                         (env_answering 200
                            [JReply (mkReply (Some (mkReplyError 102 "unknown channel")) "")])
                         example_client "chat" "42" None None [] [] [] [] [] [])
                  (Pipe.AddPublish "chat" None [] NewPipe).1
                  (mkReply (Some (mkReplyError 102 "unknown channel")) "")
                  ltac:(vm_compute; reflexivity))).
  reflexivity.
Defined.

(** ** Request bodies *)

(** Newline-delimited JSON: each value followed by a newline. *)
Definition ndjson (ms : list string) : string :=
  foldr (fun m acc => m +:+ "
" +:+ acc) "" ms.

Lemma string_app_cons (ch : Ascii.ascii) (a b : string) :
  String ch a +:+ b = String ch (a +:+ b).
Proof. reflexivity. Qed.

Lemma string_app_nil_l (b : string) : "" +:+ b = b.
Proof. reflexivity. Qed.

Lemma string_app_assoc (a b d : string) : (a +:+ b) +:+ d = a +:+ (b +:+ d).
Proof.
  induction a as [|ch a IH]; [done|]. rewrite !string_app_cons. by rewrite IH.
Qed.

Lemma string_app_nil_r (a : string) : a +:+ "" = a.
Proof. induction a as [|ch a IH]; [done|]. rewrite string_app_cons. by rewrite IH. Qed.

Lemma encode_all_ok (Marshal : Command -> string + error) cmds ms buf :
  Forall2 (fun cmd m => Marshal cmd = inl m) cmds ms ->
  encode_all Marshal cmds buf = inl (buf +:+ ndjson ms).
Proof.
  intros H. revert buf. induction H as [|cmd m cmds ms Hm _ IH]; intros buf; simpl.
  - by rewrite string_app_nil_r.
  - rewrite Hm, IH. by rewrite !string_app_assoc, string_app_cons, string_app_nil_l.
Qed.

Lemma ndjson_last ms : ms <> [] -> exists pre, ndjson ms = pre +:+ "
".
Proof.
  induction ms as [|m ms IH]; intros Hne; [done|].
  destruct ms as [|m' ms'].
  - exists m. simpl. by rewrite string_app_nil_r.
  - destruct IH as [pre Hpre]; [done|].
    exists (m +:+ "
" +:+ pre). change (ndjson (m :: m' :: ms')) with (m +:+ "
" +:+ ndjson (m' :: ms')).
    rewrite Hpre. by rewrite !string_app_assoc.
Qed.

(** A string ending in a newline does not end in a closing bracket. *)
Lemma newline_not_bracket (a b : string) : a +:+ "]" <> b +:+ "
".
Proof.
  revert b. induction a as [|ch a IH]; intros b; destruct b as [|ch' b];
    rewrite ?string_app_cons, ?string_app_nil_l.
  - discriminate.
  - intros H. injection H as _ H. destruct b; discriminate.
  - intros H. injection H as _ H. destruct a; discriminate.
  - intros H. injection H as _ H. by apply (IH b).
Qed.

Lemma marshal_elems_ok (LM : Legacy.Command -> string + error) cs ms :
  Forall2 (fun cmd m => LM cmd = inl m) cs ms -> Legacy.marshal_elems LM cs = inl ms.
Proof. induction 1 as [|cmd m cs ms Hm _ IH]; simpl; [done|]. by rewrite Hm, IH. Qed.

(** C5 (corrected). The request body of the current [send] (doc.go) is the
    newline-delimited JSON of the commands, each marshalled on its own and
    followed by a newline, so for a non-empty buffer it is not of the form
    [[...]]; the legacy [send] of main.go marshals the whole command slice
    with one [json.Marshal]: a non-nil slice (the buffer of [NewClient],
    [Reset] and [Send]) as one JSON array, a nil slice (the buffer of a
    [Client{}] literal) as [null]. *)
Theorem send_request_body :
  (forall (Marshal : Command -> string + error) (url_error : string -> option error)
          (env : Env) (c : Client) (cmds : list Command) (ms : list string),
     Forall2 (fun cmd m => Marshal cmd = inl m) cmds ms ->
     forall x, In x (run env (send Marshal url_error c cmds)).2 ->
       Body x.1 = ndjson ms /\ ReqMethod x.1 = "POST" /\
       (ms <> [] -> forall s, Body x.1 <> "[" +:+ s +:+ "]")) /\
  (forall (LM : Legacy.Command -> string + error) (url_error : string -> option error)
          (sign : string -> string -> string) (status_text : Z -> string)
          (readall : Response -> string * option error)
          (unmarshal : string -> list Reply * option error)
          (env : Env) (c : Legacy.Client) (cs : list Legacy.Command) (ms : list string),
     Forall2 (fun cmd m => LM cmd = inl m) cs ms ->
     forall x,
       In x (run env (Legacy.send LM url_error sign status_text readall unmarshal c
                        (Some cs))).2 ->
       Body x.1 = "[" +:+ String.concat "," ms +:+ "]") /\
  (forall (LM : Legacy.Command -> string + error) (url_error : string -> option error)
          (sign : string -> string -> string) (status_text : Z -> string)
          (readall : Response -> string * option error)
          (unmarshal : string -> list Reply * option error)
          (env : Env) (c : Legacy.Client) x,
     In x (run env (Legacy.send LM url_error sign status_text readall unmarshal c None)).2 ->
     Body x.1 = "null").
Proof.
  split.
  - intros Marshal url_error env c cmds ms Hms x Hx.
    destruct (send_exchanges Marshal url_error env c cmds)
      as [[Htr _] | (req & buf & Henc & Hbody & Hmeth & Hsend)].
    + rewrite Htr in Hx. destruct Hx.
    + rewrite Hsend in Hx. destruct Hx as [<- | []]. simpl.
      rewrite (encode_all_ok Marshal cmds ms "" Hms) in Henc.
      injection Henc as Hbuf. rewrite Hbody, <- Hbuf, string_app_nil_l.
      split; [done|]. split; [done|].
      intros Hne s Heq. destruct (ndjson_last ms Hne) as [pre Hpre].
      rewrite Hpre, <- string_app_assoc in Heq.
      apply (newline_not_bracket ("[" +:+ s) pre). by rewrite Heq.
  - split.
    + intros LM url_error sign status_text readall unmarshal env c cs ms Hms x Hx.
      unfold Legacy.send, Legacy.MarshalSlice in Hx.
      rewrite (marshal_elems_ok LM cs ms Hms) in Hx.
      unfold NewRequest in Hx. destruct (url_error (Legacy.Endpoint c)).
      * simpl in Hx. destruct Hx.
      * simpl in Hx. destruct (env_http env _) as [resp | e];
          [case_bool_decide; [|destruct (readall resp)]|];
          simpl in Hx; destruct Hx as [<- | []]; reflexivity.
    + intros LM url_error sign status_text readall unmarshal env c x Hx.
      unfold Legacy.send, Legacy.MarshalSlice in Hx.
      unfold NewRequest in Hx. destruct (url_error (Legacy.Endpoint c)).
      * simpl in Hx. destruct Hx.
      * simpl in Hx. destruct (env_http env _) as [resp | e];
          [case_bool_decide; [|destruct (readall resp)]|];
          simpl in Hx; destruct Hx as [<- | []]; reflexivity.
Qed.

Definition example_legacy_client : Legacy.Client :=
  Legacy.mkClient "http://localhost:8000/api/" "secret" 5 (Some []).

Definition example_legacy_send (cs : Legacy.CommandSlice) :=
  Legacy.send (fun _ => inl "{}") example_url_ok (fun _ _ => "sign") (fun _ => "")
    (fun _ => ("", None)) (fun _ => ([], None)) example_legacy_client cs.

Definition example_post : Request :=
  mkRequest "POST" "http://localhost:8000/api" [("Content-Type", "application/json")] "{}
".

Lemma send_request_body_witness :
  In (example_post, inl (mkResponse 200 []))
     (run (env_answering 200 []) (send example_marshal example_url_ok example_client
                                    (commands (Pipe.AddInfo NewPipe).1))).2 /\
  Body example_post = ndjson ["{}"].
Proof.
  assert (Hin : In (example_post, inl (mkResponse 200 []))
     (run (env_answering 200 []) (send example_marshal example_url_ok example_client
                                    (commands (Pipe.AddInfo NewPipe).1))).2)
    by (vm_compute; left; reflexivity).
  split; [exact Hin|].
  exact (proj1 (proj1 send_request_body example_marshal example_url_ok (env_answering 200 [])
                  example_client (commands (Pipe.AddInfo NewPipe).1) ["{}"]
                  ltac:(repeat constructor) _ Hin)).
Defined.

(** C5, counterexample: the legacy [send] of main.go, given a slice of one
    command that marshals to [{}], posts the body [[{}]], a JSON array, and
    not the newline-delimited [{}] followed by a newline. *)
Lemma legacy_send_posts_array :
  map (fun x => Body x.1)
      (run (env_answering 200 [])
           (example_legacy_send (Some [Legacy.mkCommand "publish" []]))).2
  = ["[{}]"] /\ "[{}]" <> ndjson ["{}"].
Proof. split; [vm_compute; reflexivity | vm_compute; discriminate]. Qed.

(** ** Decorators *)

Lemma decorator_laws_intro {O F V D : Type} `{EqDecision F} (get : F -> O -> V)
    (denote : D -> O -> O) (field : D -> F) (value : D -> V) :
  sets_one_field get denote field value -> fields_determine get ->
  decorator_laws get denote field value.
Proof.
  intros Hset Hdet. split; [done|]. split; [|split].
  - intros d o. apply Hdet. intros g.
    destruct (Hset d (denote d o)) as [H1 H2]. destruct (Hset d o) as [H3 H4].
    destruct (decide (g = field d)) as [-> | Hne].
    + by rewrite H1, H3.
    + by rewrite H2.
  - intros d1 d2 o Hf. apply Hdet. intros g.
    destruct (Hset d2 (denote d1 o)) as [H1 H2]. destruct (Hset d2 o) as [H3 H4].
    destruct (Hset d1 o) as [_ H6].
    destruct (decide (g = field d2)) as [-> | Hne].
    + by rewrite H1, H3.
    + rewrite H2, H4 by done. apply H6. by rewrite Hf.
  - intros ds. induction ds as [|d ds IH]; intros z f; [done|].
    unfold apply_opts, last_write_value in *. simpl. rewrite IH. f_equal.
    destruct (Hset d z) as [H1 H2].
    destruct (decide (field d = f)) as [<- | Hne]; [done|]. apply H2. done.
Qed.

Lemma publish_decorator_laws : decorator_laws pub_get pub_denote pub_field pub_value.
Proof.
  apply decorator_laws_intro.
  - intros [b] o. split; [done|]. intros [] Hg. done.
  - intros [a] [b] H. specialize (H FSkipHistory). simpl in H. by subst.
Qed.

Lemma subscribe_decorator_laws : decorator_laws sub_get sub_denote sub_field sub_value.
Proof.
  apply decorator_laws_intro.
  - intros d o. destruct d, o; split; try reflexivity; intros [] Hg; simpl in *;
      congruence.
  - intros [] [] H.
    generalize (H FInfo) (H FPresence) (H FJoinLeave) (H FPosition) (H FRecover)
      (H FData) (H FRecoverSince) (H FSubscribeClient).
    simpl. intros. congruence.
Qed.

Lemma unsubscribe_decorator_laws :
  decorator_laws unsub_get unsub_denote unsub_field unsub_value.
Proof.
  apply decorator_laws_intro.
  - intros [v] o. split; [done|]. intros [] Hg. done.
  - intros [a] [b] H. specialize (H FUnsubscribeClient). simpl in H. by subst.
Qed.

Lemma disconnect_decorator_laws :
  decorator_laws disc_get disc_denote disc_field disc_value.
Proof.
  apply decorator_laws_intro.
  - intros d o. destruct d, o; split; try reflexivity; intros [] Hg; simpl in *;
      congruence.
  - intros [] [] H. generalize (H FDisconnect) (H FDisconnectClient) (H FClientWhitelist).
    simpl. intros. congruence.
Qed.

Lemma history_decorator_laws : decorator_laws hist_get hist_denote hist_field hist_value.
Proof.
  apply decorator_laws_intro.
  - intros d o. destruct d, o; split; try reflexivity; intros [] Hg; simpl in *;
      congruence.
  - intros [] [] H. generalize (H FSince) (H FLimit) (H FReverse).
    simpl. intros. congruence.
Qed.

Lemma channels_decorator_laws : decorator_laws chan_get chan_denote chan_field chan_value.
Proof.
  apply decorator_laws_intro.
  - intros [v] o. split; [done|]. intros [] Hg. done.
  - intros [a] [b] H. specialize (H FPattern). simpl in H. by subst.
Qed.

Lemma apply_opts_dup {O : Type} (z : O) (d : O -> O) (os1 os2 : list (O -> O)) :
  (forall o, d (d o) = d o) ->
  apply_opts z (os1 ++ d :: d :: os2) = apply_opts z (os1 ++ d :: os2).
Proof.
  intros Hd. unfold apply_opts. rewrite !fold_left_app. simpl. by rewrite Hd.
Qed.

(** C6. The decorators of options.go are last-write-wins field setters: each
    writes its value into exactly one field and leaves the others; applying
    one twice is applying it once; of two decorators writing the same field
    the later one wins, and after any list of decorators a field holds the
    value of the last decorator that writes it. On the params payload of
    [AddPublish] and [AddSubscribe]: a repeated decorator changes nothing, and
    of two [WithSkipHistory] only the last one counts. *)
Theorem option_decorators_last_write_wins :
  decorator_laws pub_get pub_denote pub_field pub_value /\
  decorator_laws sub_get sub_denote sub_field sub_value /\
  decorator_laws unsub_get unsub_denote unsub_field unsub_value /\
  decorator_laws disc_get disc_denote disc_field disc_value /\
  decorator_laws hist_get hist_denote hist_field hist_value /\
  decorator_laws chan_get chan_denote chan_field chan_value /\
  (forall channel data (os1 os2 : list PublishOption) d p,
     Pipe.AddPublish channel data (os1 ++ pub_denote d :: pub_denote d :: os2) p
     = Pipe.AddPublish channel data (os1 ++ pub_denote d :: os2) p) /\
  (forall channel user (os1 os2 : list SubscribeOption) d p,
     Pipe.AddSubscribe channel user (os1 ++ sub_denote d :: sub_denote d :: os2) p
     = Pipe.AddSubscribe channel user (os1 ++ sub_denote d :: os2) p) /\
  (forall channel data (os : list PublishOption) a b p,
     Pipe.AddPublish channel data (os ++ [WithSkipHistory a; WithSkipHistory b]) p
     = Pipe.AddPublish channel data (os ++ [WithSkipHistory b]) p).
Proof.
  pose proof publish_decorator_laws as Hp.
  pose proof subscribe_decorator_laws as Hs.
  split; [done|]. split; [done|].
  split; [apply unsubscribe_decorator_laws|].
  split; [apply disconnect_decorator_laws|].
  split; [apply history_decorator_laws|].
  split; [apply channels_decorator_laws|].
  split; [|split].
  - intros channel data os1 os2 d p. unfold Pipe.AddPublish.
    rewrite (apply_opts_dup (O:=PublishOptions.t)); [done|]. apply (proj1 (proj2 Hp)).
  - intros channel user os1 os2 d p. unfold Pipe.AddSubscribe.
    rewrite (apply_opts_dup (O:=SubscribeOptions.t)); [done|]. apply (proj1 (proj2 Hs)).
  - intros channel data os a b p. unfold Pipe.AddPublish, apply_opts.
    rewrite !fold_left_app. reflexivity.
Qed.

Lemma option_decorators_last_write_wins_witness :
  WithPresence false (WithPresence true SubscribeOptions.zero)
  = WithPresence false SubscribeOptions.zero.
Proof.
  exact (proj1 (proj2 (proj2 (proj1 (proj2 option_decorators_last_write_wins))))
           (DPresence true) (DPresence false) SubscribeOptions.zero eq_refl).
Defined.

(** ** Options are copied into the command, their slices are shared *)

Lemma deref_bytes_store_ne (h : heap) (l : loc) (obj : HeapObj) (r : RawMessage) :
  r <> Some l -> deref_bytes (heap_store l obj h) r = deref_bytes h r.
Proof.
  intros Hr. destruct r as [l'|]; [|done]. unfold deref_bytes, heap_store.
  rewrite lookup_insert_ne; [done|]. congruence.
Qed.

Lemma deref_position_store_ne (h : heap) (l : loc) (obj : HeapObj) (p : StreamPositionPtr) :
  p <> Some l -> deref_position (heap_store l obj h) p = deref_position h p.
Proof.
  intros Hp. destruct p as [l'|]; [|done]. unfold deref_position, heap_store.
  rewrite lookup_insert_ne; [done|]. congruence.
Qed.

Lemma deref_strings_store_ne (h : heap) (l : loc) (obj : HeapObj) (s : StringSlice) :
  s <> Some l -> deref_strings (heap_store l obj h) s = deref_strings h s.
Proof.
  intros Hs. destruct s as [l'|]; [|done]. unfold deref_strings, heap_store.
  rewrite lookup_insert_ne; [done|]. congruence.
Qed.

Lemma deref_disconnect_store_ne (h : heap) (l : loc) (obj : HeapObj) (d : DisconnectPtr) :
  d <> Some l -> deref_disconnect (heap_store l obj h) d = deref_disconnect h d.
Proof.
  intros Hd. destruct d as [l'|]; [|done]. unfold deref_disconnect, heap_store.
  rewrite lookup_insert_ne; [done|]. congruence.
Qed.

Lemma not_in_opt_loc (l : loc) (r : option loc) : l ∉ opt_loc r -> r <> Some l.
Proof. intros Hn ->. apply Hn. simpl. left. Qed.

Lemma command_view_frame (h : heap) (l : loc) (obj : HeapObj) (cmd : Command) :
  l ∉ cmd_refs cmd -> command_view (heap_store l obj h) cmd = command_view h cmd.
Proof.
  unfold cmd_refs, command_view. destruct (CParams cmd) as [r|r|r|r|r|r|r|m];
    rewrite ?not_elem_of_app; intros Hn; try reflexivity.
  - by rewrite deref_bytes_store_ne by (apply not_in_opt_loc; done).
  - destruct Hn as [H1 H2].
    by rewrite deref_strings_store_ne, deref_bytes_store_ne by (apply not_in_opt_loc; done).
  - destruct Hn as [H1 [H2 H3]]. unfold subscribe_view.
    by rewrite !deref_bytes_store_ne, deref_position_store_ne by (apply not_in_opt_loc; done).
  - destruct Hn as [H1 H2].
    by rewrite deref_disconnect_store_ne, deref_strings_store_ne by (apply not_in_opt_loc; done).
  - by rewrite deref_position_store_ne by (apply not_in_opt_loc; done).
Qed.

(** The heap of the examples: one backing array at address 1 holding [{}]. *)
Definition info_heap : heap := {[ 1%N := HBytes "{}" ]}.

(** C7, counterexample: a subscribe command buffered with
    [WithSubscribeInfo info], [info] a slice over the array at address 1;
    after the call the caller writes [[]] into [info]; the command the pipe
    holds now serializes [[]] as its info instead of [{}]. *)
Lemma subscribe_info_shared :
  exists cmd,
    commands (Pipe.AddSubscribe "chat" "42" [WithSubscribeInfo (Some 1%N)] NewPipe).1 = [cmd] /\
    command_view info_heap cmd <> command_view (heap_store 1%N (HBytes "[]") info_heap) cmd.
Proof.
  eexists. split; [reflexivity|]. vm_compute. congruence.
Qed.

(** C7 (corrected). Every [Add*] builds its options record afresh, lets the
    decorators fill it, and stores a copy of it ([*options]) in the command
    it appends; strings, booleans and integers are copied. What the buffered
    command serializes depends on memory only through the references it
    holds: a write to any other address leaves it unchanged (first part).
    Those references are exactly the slices and pointers the caller passed:
    the [data] of [AddPublish] and [AddBroadcast] and of each request of
    [AddPublishRequests], the [channels] of [AddBroadcast], the [Info], [Data]
    and [RecoverSince] of the subscribe options, the [Disconnect] and
    [ClientWhitelist] of the disconnect options and the [Since] of the
    history options; the other [Add*] hold none. At any memory the command
    serializes the current contents at those references, so a write the
    caller makes through one of them after the call is seen by the buffered
    command (last part). *)
Theorem Add_shares_references :
  (forall h l obj cmd, l ∉ cmd_refs cmd ->
     command_view (heap_store l obj h) cmd = command_view h cmd) /\
  (forall channel data opts p, exists cmd,
     commands (Pipe.AddPublish channel data opts p).1 = commands p ++ [cmd] /\
     cmd_refs cmd = opt_loc data /\
     forall h, command_view h cmd =
       VPublish channel (deref_bytes h data)
         (PublishOptions.SkipHistory (apply_opts PublishOptions.zero opts))) /\
  (forall requests p, exists cmds,
     commands (Pipe.AddPublishRequests requests p).1 = commands p ++ cmds /\
     map cmd_refs cmds = map (fun r => opt_loc (pubData r)) requests /\
     forall h, map (command_view h) cmds =
       map (fun r => VPublish (pubChannel r) (deref_bytes h (pubData r))
                       (PublishOptions.SkipHistory (pubOptions r))) requests) /\
  (forall channels data opts p, exists cmd,
     commands (Pipe.AddBroadcast channels data opts p).1 = commands p ++ [cmd] /\
     cmd_refs cmd = opt_loc channels ++ opt_loc data /\
     forall h, command_view h cmd =
       VBroadcast (deref_strings h channels) (deref_bytes h data)
         (PublishOptions.SkipHistory (apply_opts PublishOptions.zero opts))) /\
  (forall channel user opts p, exists cmd,
     let o := apply_opts SubscribeOptions.zero opts in
     commands (Pipe.AddSubscribe channel user opts p).1 = commands p ++ [cmd] /\
     cmd_refs cmd = opt_loc (Info o) ++ opt_loc (Data o) ++ opt_loc (RecoverSince o) /\
     forall h, command_view h cmd =
       VSubscribe (mkSubscribeParamsView channel user (deref_bytes h (Info o))
         (Presence o) (JoinLeave o) (Position o) (Recover o) (deref_bytes h (Data o))
         (deref_position h (RecoverSince o)) (ClientID o))) /\
  (forall channel user opts p, exists cmd,
     commands (Pipe.AddUnsubscribe channel user opts p).1 = commands p ++ [cmd] /\
     cmd_refs cmd = [] /\
     forall h, command_view h cmd =
       VUnsubscribe channel user
         (UnsubscribeOptions.ClientID (apply_opts UnsubscribeOptions.zero opts))) /\
  (forall user opts p, exists cmd,
     let o := apply_opts DisconnectOptions.zero opts in
     commands (Pipe.AddDisconnect user opts p).1 = commands p ++ [cmd] /\
     cmd_refs cmd = opt_loc (DisconnectOptions.Disconnect o)
                    ++ opt_loc (DisconnectOptions.ClientWhitelist o) /\
     forall h, command_view h cmd =
       VDisconnect user (deref_disconnect h (DisconnectOptions.Disconnect o))
         (deref_strings h (DisconnectOptions.ClientWhitelist o))
         (DisconnectOptions.ClientID o)) /\
  (forall channel p, exists cmd,
     commands (Pipe.AddPresence channel p).1 = commands p ++ [cmd] /\
     cmd_refs cmd = [] /\ forall h, command_view h cmd = VMap [("channel", channel)]) /\
  (forall channel p, exists cmd,
     commands (Pipe.AddPresenceStats channel p).1 = commands p ++ [cmd] /\
     cmd_refs cmd = [] /\ forall h, command_view h cmd = VMap [("channel", channel)]) /\
  (forall channel opts p, exists cmd,
     let o := apply_opts HistoryOptions.zero opts in
     commands (Pipe.AddHistory channel opts p).1 = commands p ++ [cmd] /\
     cmd_refs cmd = opt_loc (HistoryOptions.Since o) /\
     forall h, command_view h cmd =
       VHistory channel (deref_position h (HistoryOptions.Since o))
         (HistoryOptions.Limit o) (HistoryOptions.Reverse o)) /\
  (forall channel p, exists cmd,
     commands (Pipe.AddHistoryRemove channel p).1 = commands p ++ [cmd] /\
     cmd_refs cmd = [] /\ forall h, command_view h cmd = VMap [("channel", channel)]) /\
  (forall opts p, exists cmd,
     commands (Pipe.AddChannels opts p).1 = commands p ++ [cmd] /\
     cmd_refs cmd = [] /\
     forall h, command_view h cmd =
       VChannels (ChannelsOptions.Pattern (apply_opts ChannelsOptions.zero opts))) /\
  (forall p, exists cmd,
     commands (Pipe.AddInfo p).1 = commands p ++ [cmd] /\
     cmd_refs cmd = [] /\ forall h, command_view h cmd = VMap []) /\
  (forall h l bs, deref_bytes (heap_store l (HBytes bs) h) (Some l) = Some bs) /\
  (forall h l ss, deref_strings (heap_store l (HStrings ss) h) (Some l) = Some ss) /\
  (forall h l sp,
     deref_position (heap_store l (HStreamPosition sp) h) (Some l) = Some sp) /\
  (forall h l d, deref_disconnect (heap_store l (HDisconnect d) h) (Some l) = Some d).
Proof.
  split; [exact command_view_frame|].
  split; [intros; eexists; split; [reflexivity|]; split; reflexivity|].
  split.
  { intros requests p. eexists. split; [reflexivity|].
    unfold Pipe.AddPublishRequests.
    assert (Hgen : forall acc,
      fold_left (fun acc request => acc ++ [command "publish" (PPublish request)]) requests acc
      = acc ++ map (fun request => command "publish" (PPublish request)) requests).
    { induction requests as [|r rs IH]; intros acc; simpl.
      - by rewrite app_nil_r.
      - rewrite IH. by rewrite <- app_assoc. }
    rewrite Hgen, app_nil_l, !map_map. split; [reflexivity|]. intros h.
    by rewrite map_map. }
  do 10 (split; [intros; eexists; split; [reflexivity|]; split; reflexivity|]).
  repeat split; intros; cbn; unfold heap_store; by rewrite lookup_insert_eq.
Qed.

Lemma Add_shares_references_witness :
  command_view (heap_store 1%N (HStrings ["alice"]) info_heap)
    (command "disconnect" (PDisconnect (mkDisconnectRequest "42"
       (apply_opts DisconnectOptions.zero [WithDisconnectClientWhitelist (Some 1%N)]))))
  = VDisconnect "42" None (Some ["alice"]) "" /\
  command_view (heap_store 2%N (HBytes "[]") info_heap)
    (command "subscribe" (PSubscribe (mkSubscribeRequest "chat" "42"
       (apply_opts SubscribeOptions.zero [WithSubscribeInfo (Some 1%N)]))))
  = command_view info_heap
      (command "subscribe" (PSubscribe (mkSubscribeRequest "chat" "42"
         (apply_opts SubscribeOptions.zero [WithSubscribeInfo (Some 1%N)])))).
Proof.
  split.
  - reflexivity.
  - apply (proj1 Add_shares_references). vm_compute. set_solver.
Defined.

(** * Further properties of the code *)

(** ** Decoding the reply stream *)

Lemma decode_loop_map (xs : list Reply) (acc : list Reply) :
  decode_loop (map JReply xs) acc = (acc ++ xs, None).
Proof.
  revert acc. induction xs as [|x xs IH]; intros acc; simpl.
  - by rewrite app_nil_r.
  - rewrite IH. by rewrite <- app_assoc.
Qed.

Lemma decode_loop_app_map (xs : list Reply) (tl : list json_value) (acc : list Reply) :
  decode_loop (map JReply xs ++ tl) acc = decode_loop tl (acc ++ xs).
Proof.
  revert acc. induction xs as [|x xs IH]; intros acc; simpl.
  - by rewrite app_nil_r.
  - rewrite IH. by rewrite <- app_assoc.
Qed.

Lemma decode_loop_ok (vs : list json_value) (acc rs : list Reply) :
  decode_loop vs acc = (rs, None) -> exists xs, vs = map JReply xs /\ rs = acc ++ xs.
Proof.
  revert acc. induction vs as [|v vs IH]; intros acc H; simpl in H.
  - injection H as <-. exists []. by rewrite app_nil_r.
  - destruct v as [r | m]; [|discriminate].
    destruct (IH _ H) as (xs & -> & ->). exists (r :: xs).
    split; [done|]. by rewrite <- app_assoc.
Qed.

(** ** The outcome of SendPipe *)

Lemma SendPipe_outcome Marshal url_error env c p :
  (exists e, (run env (SendPipe Marshal url_error c p)).1 = (p, ([], Some e))) \/
  (exists rs, (run env (SendPipe Marshal url_error c p)).1 = (p, (rs, None)) /\
              length rs = length (commands p) /\ commands p <> []).
Proof.
  destruct (decide (commands p = [])) as [He | Hne].
  - left. exists ErrPipeEmpty. unfold SendPipe. rewrite He. reflexivity.
  - rewrite run_SendPipe by done. simpl.
    destruct (run env (send Marshal url_error c (commands p))) as [[result [e|]] tr]; simpl.
    + left. eauto.
    + case_bool_decide.
      * left. eauto.
      * right. exists result. repeat split; [|done]. lia.
Qed.

Section WrapperRuns.

Variable Marshal : Command -> string + error.
Variable url_error : string -> option error.
Variables PublishResult HistoryResult : Type.
Variable PublishResult_zero : PublishResult.
Variable HistoryResult_zero : HistoryResult.
Variable UnmarshalPublish : string -> PublishResult + string.
Variable UnmarshalHistory : string -> HistoryResult + string.

Lemma run_Publish env c channel data popts :
  run env (Publish Marshal url_error PublishResult PublishResult_zero UnmarshalPublish
             c channel data popts)
  = (match (run env (SendPipe Marshal url_error c
                       (Pipe.AddPublish channel data popts NewPipe).1)).1 with
     | (_, (result, err)) =>
         match err with
         | Some e => (PublishResult_zero, Some e)
         | None =>
             match result with
             | [] => (PublishResult_zero, Some ErrIndexOutOfRange)
             | resp :: _ =>
                 match RError resp with
                 | Some e => (PublishResult_zero, Some (ServerError e))
                 | None => decodePublish PublishResult PublishResult_zero UnmarshalPublish
                             (RResult resp)
                 end
             end
         end
     end,
     (run env (SendPipe Marshal url_error c (Pipe.AddPublish channel data popts NewPipe).1)).2).
Proof.
  unfold Publish. simpl. unfold mbind, io_mbind. rewrite run_bind. simpl.
  destruct (run env (SendPipe _ _ _ _)) as [[pipe' [result [e|]]] tr]; simpl; [by rewrite app_nil_r|].
  destruct result as [|resp rs]; simpl; [by rewrite app_nil_r|].
  destruct (RError resp); simpl; by rewrite app_nil_r.
Qed.

Lemma run_History env c channel hopts :
  run env (History Marshal url_error HistoryResult HistoryResult_zero UnmarshalHistory
             c channel hopts)
  = (match (run env (SendPipe Marshal url_error c
                       (Pipe.AddHistory channel hopts NewPipe).1)).1 with
     | (_, (result, err)) =>
         match err with
         | Some e => (HistoryResult_zero, Some e)
         | None =>
             match result with
             | [] => (HistoryResult_zero, Some ErrIndexOutOfRange)
             | resp :: _ =>
                 match RError resp with
                 | Some e => (HistoryResult_zero, Some (ServerError e))
                 | None => decodeHistory HistoryResult HistoryResult_zero UnmarshalHistory
                             (RResult resp)
                 end
             end
         end
     end,
     (run env (SendPipe Marshal url_error c (Pipe.AddHistory channel hopts NewPipe).1)).2).
Proof.
  unfold History. simpl. unfold mbind, io_mbind. rewrite run_bind. simpl.
  destruct (run env (SendPipe _ _ _ _)) as [[pipe' [result [e|]]] tr]; simpl; [by rewrite app_nil_r|].
  destruct result as [|resp rs]; simpl; [by rewrite app_nil_r|].
  destruct (RError resp); simpl; by rewrite app_nil_r.
Qed.

End WrapperRuns.

Lemma run_Subscribe Marshal url_error env c channel user opts :
  run env (Subscribe Marshal url_error c channel user opts)
  = (match (run env (SendPipe Marshal url_error c
                       (Pipe.AddSubscribe channel user opts NewPipe).1)).1 with
     | (_, (result, err)) =>
         match err with
         | Some e => Some e
         | None =>
             match result with
             | [] => Some ErrIndexOutOfRange
             | resp :: _ =>
                 match RError resp with
                 | Some e => Some (ServerError e)
                 | None => None
                 end
             end
         end
     end,
     (run env (SendPipe Marshal url_error c
                 (Pipe.AddSubscribe channel user opts NewPipe).1)).2).
Proof.
  unfold Subscribe. simpl. unfold mbind, io_mbind. rewrite run_bind. simpl.
  destruct (run env (SendPipe _ _ _ _)) as [[pipe' [result [e|]]] tr]; simpl; [by rewrite app_nil_r|].
  destruct result as [|resp rs]; simpl; [by rewrite app_nil_r|].
  destruct (RError resp); simpl; by rewrite app_nil_r.
Qed.

(** ** The request send builds *)

(** [send] posts with the method POST, an [Authorization: apikey <key>]
    header exactly when the API key is non-empty, and the JSON content type. *)
Theorem send_request_headers (Marshal : Command -> string + error)
    (url_error : string -> option error) (env : Env) (c : Client)
    (cmds : list Command) (req : Request) (r : Response + error) :
  In (req, r) (run env (send Marshal url_error c cmds)).2 ->
  ReqMethod req = "POST" /\
  Header req = (if bool_decide (apiKey c = "") then []
                else [("Authorization", "apikey " +:+ apiKey c)])
               ++ [("Content-Type", "application/json")].
Proof.
  intros Hin.
  assert (Hpost : forall buf ep,
    In (req, r) (run env (post url_error c buf ep)).2 ->
    ReqMethod req = "POST" /\
    Header req = (if bool_decide (apiKey c = "") then []
                  else [("Authorization", "apikey " +:+ apiKey c)])
                 ++ [("Content-Type", "application/json")]).
  { intros buf ep H. unfold post, NewRequest in H.
    destruct (url_error ep); [destruct H|].
    case_bool_decide; simpl in H; destruct H as [H | []]; injection H as <- _;
      split; reflexivity. }
  unfold send in Hin.
  destruct (encode_all Marshal cmds "") as [buf | e]; [|destruct Hin].
  destruct (getEndpoint c); [|eauto].
  simpl in Hin. destruct (env_endpoint env) as [ep | e]; [eauto | destruct Hin].
Qed.

(** A client with an API key, and the request it posts for an empty
    command list. *)
Definition keyed_client : Client := mkClient "http://localhost:8000/api" false "secret".
Definition keyed_request : Request :=
  mkRequest "POST" "http://localhost:8000/api"
    [("Authorization", "apikey secret"); ("Content-Type", "application/json")] "".

Lemma send_request_headers_witness :
  In (keyed_request, inl (mkResponse 200 []))
     (run (env_answering 200 []) (send example_marshal example_url_ok keyed_client [])).2 /\
  Header keyed_request
  = [("Authorization", "apikey secret"); ("Content-Type", "application/json")].
Proof.
  assert (Hin : In (keyed_request, inl (mkResponse 200 []))
     (run (env_answering 200 []) (send example_marshal example_url_ok keyed_client [])).2)
    by (vm_compute; left; reflexivity).
  split; [exact Hin|].
  exact (proj2 (send_request_headers example_marshal example_url_ok (env_answering 200 [])
                  keyed_client [] keyed_request (inl (mkResponse 200 [])) Hin)).
Defined.

(** With [Config.GetAddr] set, a client made by [New] asks the resolver for
    the endpoint on every call and posts to its answer, whatever [Addr]
    holds; a resolver error is returned before any HTTP call. Without
    [GetAddr] it posts to [Addr] and never calls the resolver. *)
Theorem New_endpoint (Marshal : Command -> string + error)
    (url_error : string -> option error) (env : Env) (cfg : Config)
    (cmds : list Command) (buf : string) :
  encode_all Marshal cmds "" = inl buf ->
  (GetAddr cfg = true -> forall e, env_endpoint env = inr e ->
     run env (send Marshal url_error (New cfg) cmds) = (([], Some e), [])) /\
  (GetAddr cfg = true -> forall ep, env_endpoint env = inl ep -> url_error ep = None ->
     exists req, (run env (send Marshal url_error (New cfg) cmds)).2
                 = [(req, env_http env req)] /\ URL req = ep) /\
  (GetAddr cfg = false -> url_error (Addr cfg) = None ->
     send Marshal url_error (New cfg) cmds = post url_error (New cfg) buf (Addr cfg) /\
     exists req, (run env (send Marshal url_error (New cfg) cmds)).2
                 = [(req, env_http env req)] /\ URL req = Addr cfg).
Proof.
  intros Henc.
  assert (Hpost : forall ep, url_error ep = None ->
    exists req, (run env (post url_error (New cfg) buf ep)).2
                = [(req, env_http env req)] /\ URL req = ep).
  { intros ep Hu. unfold post, NewRequest. rewrite Hu.
    case_bool_decide; eexists; split; reflexivity. }
  unfold send. rewrite Henc. unfold New at 1. simpl. split; [|split].
  - intros -> e He. simpl. by rewrite He.
  - intros -> ep He Hu. simpl. rewrite He. by apply Hpost.
  - intros -> Hu. split; [reflexivity|]. by apply Hpost.
Qed.

Definition resolver_config : Config := mkConfig "http://stale:8000/api" true "".
Definition env_resolving (ep : string) : Env :=
  mkEnv (inl ep) (fun _ => inl (mkResponse 200 [])).

Lemma New_endpoint_witness :
  exists req,
    (run (env_resolving "http://fresh:8000/api")
         (send example_marshal example_url_ok (New resolver_config)
            [command "info" (PMap [])])).2
    = [(req, env_http (env_resolving "http://fresh:8000/api") req)] /\
    URL req = "http://fresh:8000/api".
Proof.
  apply (proj1 (proj2 (New_endpoint example_marshal example_url_ok
                         (env_resolving "http://fresh:8000/api") resolver_config
                         [command "info" (PMap [])] ("" +:+ "{}" +:+ "
") eq_refl))
           eq_refl "http://fresh:8000/api" eq_refl eq_refl).
Defined.

(** ** Encoding failures *)

Lemma encode_all_fail (Marshal : Command -> string + error) pre cmd post e buf :
  (forall x, In x pre -> exists s, Marshal x = inl s) -> Marshal cmd = inr e ->
  encode_all Marshal (pre ++ cmd :: post) buf = inr e.
Proof.
  revert buf. induction pre as [|x pre IH]; intros buf Hpre Hcmd; simpl.
  - by rewrite Hcmd.
  - destruct (Hpre x (or_introl eq_refl)) as [s Hs]. rewrite Hs.
    apply IH; [|done]. intros y Hy. apply Hpre. by right.
Qed.

(** When a command fails to marshal, [send] returns the error of the first
    such command without resolving the endpoint or making an HTTP call, and
    [SendPipe] returns it for a pipe holding these commands. *)
Theorem send_marshal_error (Marshal : Command -> string + error)
    (url_error : string -> option error) (c : Client)
    (pre : list Command) (cmd : Command) (post : list Command) (e : error) :
  (forall x, In x pre -> exists s, Marshal x = inl s) -> Marshal cmd = inr e ->
  send Marshal url_error c (pre ++ cmd :: post) = Ret ([], Some e) /\
  (forall p, commands p = pre ++ cmd :: post ->
     SendPipe Marshal url_error c p = Ret (p, ([], Some e))).
Proof.
  intros Hpre Hcmd.
  assert (Hs : send Marshal url_error c (pre ++ cmd :: post) = Ret ([], Some e)).
  { unfold send. by rewrite (encode_all_fail Marshal pre cmd post e "" Hpre Hcmd). }
  split; [exact Hs|].
  intros p Hp. unfold SendPipe. rewrite Hp, bool_decide_false.
  - unfold mbind, io_mbind. rewrite Hs. reflexivity.
  - rewrite length_app. simpl. lia.
Qed.

(** A marshaller that fails on info commands. *)
Definition marshal_no_info (cmd : Command) : string + error :=
  if bool_decide (Method cmd = "info") then inr (JSONError "unsupported type")
  else inl "{}".

Lemma send_marshal_error_witness :
  send marshal_no_info example_url_ok example_client
    ([command "presence" (PMap [("channel", "chat")])] ++
     command "info" (PMap []) :: [command "channels" (PChannels (mkChannelsRequest ""))])
  = Ret ([], Some (JSONError "unsupported type")).
Proof.
  apply (proj1 (send_marshal_error marshal_no_info example_url_ok example_client
                  [command "presence" (PMap [("channel", "chat")])]
                  (command "info" (PMap []))
                  [command "channels" (PChannels (mkChannelsRequest ""))]
                  (JSONError "unsupported type")
                  ltac:(intros x [<- | []]; eexists; reflexivity)
                  eq_refl)).
Defined.

(** ** Decoding the response stream *)

(** After a 200 answer, [send] returns the replies of the body in order when
    every value of the stream decodes; when one does not, it returns that
    decoding error and drops the replies decoded before it. *)
Theorem send_reply_stream (Marshal : Command -> string + error)
    (url_error : string -> option error) (env : Env) (c : Client)
    (cmds : list Command) (req : Request) (resp : Response) :
  In (req, inl resp) (run env (send Marshal url_error c cmds)).2 ->
  StatusCode resp = 200 ->
  (forall rs, RespBody resp = map JReply rs ->
     (run env (send Marshal url_error c cmds)).1 = (rs, None)) /\
  (forall rs m rest, RespBody resp = map JReply rs ++ JInvalid m :: rest ->
     (run env (send Marshal url_error c cmds)).1 = ([], Some (JSONError m))).
Proof.
  intros Hin Hst.
  destruct (send_exchanges Marshal url_error env c cmds)
    as [[Htr _] | (req' & buf & _ & _ & _ & Hsend)].
  - rewrite Htr in Hin. destruct Hin.
  - rewrite Hsend in Hin |- *. simpl in Hin. destruct Hin as [Heq | []].
    injection Heq as -> Hresp. simpl. rewrite Hresp. simpl.
    rewrite bool_decide_false by (rewrite Hst; lia).
    split.
    + intros rs Hb. by rewrite Hb, decode_loop_map.
    + intros rs m rest Hb. by rewrite Hb, decode_loop_app_map.
Qed.

Lemma send_reply_stream_witness :
  (run (env_answering 200 [JReply (mkReply None "{}"); JInvalid "unexpected EOF"])
       (send example_marshal example_url_ok example_client [command "info" (PMap [])])).1
  = ([], Some (JSONError "unexpected EOF")).
Proof.
  apply (proj2 (send_reply_stream example_marshal example_url_ok
                  (env_answering 200 [JReply (mkReply None "{}"); JInvalid "unexpected EOF"])
                  example_client [command "info" (PMap [])]
                  (mkRequest "POST" "http://localhost:8000/api"
                     [("Content-Type", "application/json")] ("" +:+ "{}" +:+ "
"))
                  (mkResponse 200 [JReply (mkReply None "{}"); JInvalid "unexpected EOF"])
                  ltac:(vm_compute; left; reflexivity) eq_refl)
           [mkReply None "{}"] "unexpected EOF" [] eq_refl).
Defined.

(** ** The single-command operations *)

Section WrapperOutcomes.

Variable Marshal : Command -> string + error.
Variable url_error : string -> option error.
Variables PublishResult HistoryResult : Type.
Variable PublishResult_zero : PublishResult.
Variable HistoryResult_zero : HistoryResult.
Variable UnmarshalPublish : string -> PublishResult + string.
Variable UnmarshalHistory : string -> HistoryResult + string.

(** [Publish] and [History] make the HTTP exchanges of [SendPipe] on their
    one-command pipe and nothing else, and either return the error of
    [SendPipe] with the zero result, or [SendPipe] returned exactly one reply
    and they return its server error or its decoded payload: [result[0]]
    never indexes an empty reply list. *)
Theorem single_command_outcome (env : Env) (c : Client) (channel : string)
    (data : RawMessage) (popts : list PublishOption) (hopts : list HistoryOption) :
  let pp := (Pipe.AddPublish channel data popts NewPipe).1 in
  let hp := (Pipe.AddHistory channel hopts NewPipe).1 in
  (run env (Publish Marshal url_error PublishResult PublishResult_zero UnmarshalPublish
              c channel data popts)).2
    = (run env (SendPipe Marshal url_error c pp)).2 /\
  ((exists e, (run env (SendPipe Marshal url_error c pp)).1 = (pp, ([], Some e)) /\
      (run env (Publish Marshal url_error PublishResult PublishResult_zero UnmarshalPublish
                  c channel data popts)).1 = (PublishResult_zero, Some e)) \/
   (exists resp, (run env (SendPipe Marshal url_error c pp)).1 = (pp, ([resp], None)) /\
      (run env (Publish Marshal url_error PublishResult PublishResult_zero UnmarshalPublish
                  c channel data popts)).1
      = match RError resp with
        | Some e => (PublishResult_zero, Some (ServerError e))
        | None => decodePublish PublishResult PublishResult_zero UnmarshalPublish
                    (RResult resp)
        end)) /\
  (run env (History Marshal url_error HistoryResult HistoryResult_zero UnmarshalHistory
              c channel hopts)).2
    = (run env (SendPipe Marshal url_error c hp)).2 /\
  ((exists e, (run env (SendPipe Marshal url_error c hp)).1 = (hp, ([], Some e)) /\
      (run env (History Marshal url_error HistoryResult HistoryResult_zero UnmarshalHistory
                  c channel hopts)).1 = (HistoryResult_zero, Some e)) \/
   (exists resp, (run env (SendPipe Marshal url_error c hp)).1 = (hp, ([resp], None)) /\
      (run env (History Marshal url_error HistoryResult HistoryResult_zero UnmarshalHistory
                  c channel hopts)).1
      = match RError resp with
        | Some e => (HistoryResult_zero, Some (ServerError e))
        | None => decodeHistory HistoryResult HistoryResult_zero UnmarshalHistory
                    (RResult resp)
        end)).
Proof.
  intros pp hp.
  rewrite run_Publish, run_History. simpl. split; [|split; [|split]]; try reflexivity.
  - destruct (SendPipe_outcome Marshal url_error env c pp)
      as [[e He] | (rs & Hrs & Hlen & _)].
    + left. exists e. split; [exact He|]. unfold pp in He. simpl in He. by rewrite He.
    + right. destruct rs as [|resp [|r2 rs]]; simpl in Hlen; try discriminate.
      exists resp. split; [exact Hrs|]. unfold pp in Hrs. simpl in Hrs. by rewrite Hrs.
  - destruct (SendPipe_outcome Marshal url_error env c hp)
      as [[e He] | (rs & Hrs & Hlen & _)].
    + left. exists e. split; [exact He|]. unfold hp in He. simpl in He. by rewrite He.
    + right. destruct rs as [|resp [|r2 rs]]; simpl in Hlen; try discriminate.
      exists resp. split; [exact Hrs|]. unfold hp in Hrs. simpl in Hrs. by rewrite Hrs.
Qed.

(** [Publish] makes at most one HTTP call: a POST whose body is the JSON of
    the one publish command, built from the channel, the data and the
    options, followed by a newline. *)
Theorem Publish_request_body (env : Env) (c : Client) (channel : string)
    (data : RawMessage) (popts : list PublishOption) (s : string) :
  Marshal (command "publish"
             (PPublish (mkPublishRequest channel data (apply_opts PublishOptions.zero popts))))
    = inl s ->
  (run env (Publish Marshal url_error PublishResult PublishResult_zero UnmarshalPublish
              c channel data popts)).2 = [] \/
  exists req,
    (run env (Publish Marshal url_error PublishResult PublishResult_zero UnmarshalPublish
                c channel data popts)).2 = [(req, env_http env req)] /\
    ReqMethod req = "POST" /\ Body req = s +:+ "
".
Proof.
  intros Hm. rewrite run_Publish. simpl.
  rewrite run_SendPipe by (simpl; discriminate). simpl.
  destruct (send_exchanges Marshal url_error env c
              [command "publish"
                 (PPublish (mkPublishRequest channel data
                              (apply_opts PublishOptions.zero popts)))])
    as [[Htr _] | (req & buf & Henc & Hb & Hm' & Hsend)].
  - left. exact Htr.
  - right. exists req. rewrite Hsend. split; [reflexivity|]. split; [exact Hm'|].
    rewrite Hb. simpl in Henc. rewrite Hm in Henc. simpl in Henc.
    injection Henc as <-. apply string_app_nil_l.
Qed.

End WrapperOutcomes.

Lemma Publish_request_body_witness :
  (run (env_answering 200 [JReply (mkReply None "{}")])
       (Publish example_marshal example_url_ok nat 0%nat (fun _ => inl 1%nat)
          example_client "chat" (Some 1%N) [WithSkipHistory true])).2 = [] \/
  exists req,
    (run (env_answering 200 [JReply (mkReply None "{}")])
         (Publish example_marshal example_url_ok nat 0%nat (fun _ => inl 1%nat)
            example_client "chat" (Some 1%N) [WithSkipHistory true])).2
    = [(req, env_http (env_answering 200 [JReply (mkReply None "{}")]) req)] /\
    ReqMethod req = "POST" /\ Body req = "{}" +:+ "
".
Proof.
  apply (Publish_request_body example_marshal example_url_ok nat 0%nat
           (fun _ => inl 1%nat)
           (env_answering 200 [JReply (mkReply None "{}")]) example_client "chat"
           (Some 1%N) [WithSkipHistory true] "{}" eq_refl).
Defined.

(** [Subscribe] returns nil exactly when it made a single HTTP exchange that
    answered 200 with a body of one reply carrying no error. *)
Theorem Subscribe_nil_iff (Marshal : Command -> string + error)
    (url_error : string -> option error) (env : Env) (c : Client)
    (channel user : string) (opts : list SubscribeOption) :
  (run env (Subscribe Marshal url_error c channel user opts)).1 = None <->
  exists req resp r,
    (run env (Subscribe Marshal url_error c channel user opts)).2 = [(req, inl resp)] /\
    StatusCode resp = 200 /\ RespBody resp = [JReply r] /\ RError r = None.
Proof.
  set (p := (Pipe.AddSubscribe channel user opts NewPipe).1).
  assert (Hne : commands p <> []) by (simpl; discriminate).
  assert (H1 : length (commands p) = 1%nat) by reflexivity.
  rewrite run_Subscribe. fold p. rewrite run_SendPipe by exact Hne. clearbody p.
  destruct (send_exchanges Marshal url_error env c (commands p))
    as [[Htr [e He]] | (req & buf & _ & _ & _ & Hsend)].
  - rewrite Htr, He. simpl. split; [discriminate|].
    intros (req & resp & r & H & _). discriminate.
  - rewrite Hsend. simpl. split.
    + destruct (env_http env req) as [resp | e] eqn:Hr; simpl; [|discriminate].
      case_bool_decide as Hst; simpl; [discriminate|].
      destruct (decode_loop (RespBody resp) []) as [rs [e|]] eqn:Hd; simpl; [discriminate|].
      case_bool_decide as Hlen; simpl; [discriminate|].
      destruct rs as [|r rs]; [discriminate|].
      destruct (RError r) eqn:Her; [discriminate|]. intros _.
      destruct (decode_loop_ok _ _ _ Hd) as (xs & Hb & Hxs). simpl in Hxs. subst xs.
      destruct rs; [|simpl in Hlen; lia].
      exists req, resp, r. repeat split; done.
    + intros (req' & resp & r & Htr & Hst & Hb & Her).
      injection Htr as <- Hr. rewrite Hr. simpl.
      rewrite bool_decide_false by lia. rewrite Hb. simpl.
      rewrite bool_decide_false by (rewrite H1; simpl; lia). by rewrite Her.
Qed.

(** ** The legacy client: endpoint normalisation *)

Lemma string_length_app (a b : string) :
  String.length (a +:+ b) = (String.length a + String.length b)%nat.
Proof. induction a as [|ch a IH]; [done|]. rewrite string_app_cons. simpl. by rewrite IH. Qed.

Lemma substring_0_length (t : string) : substring 0 (String.length t) t = t.
Proof. induction t as [|ch t IH]; [done|]. simpl. by rewrite IH. Qed.

Lemma substring_app (a b : string) :
  substring (String.length a) (String.length b) (a +:+ b) = b.
Proof.
  induction a as [|ch a IH]; [apply substring_0_length|].
  rewrite string_app_cons. simpl. exact IH.
Qed.

Lemma substring_split (s : string) (k m : nat) :
  (k + m)%nat = String.length s -> s = substring 0 k s +:+ substring k m s.
Proof.
  revert k m. induction s as [|ch s IH]; intros k m Hl.
  - simpl in Hl. destruct k, m; try lia. reflexivity.
  - destruct k as [|k].
    + simpl in Hl. subst m. simpl. by rewrite substring_0_length.
    + simpl. rewrite string_app_cons. f_equal. apply IH. simpl in Hl. lia.
Qed.

Lemma HasSuffix_app (a b : string) : Legacy.HasSuffix (a +:+ b) b = true.
Proof.
  unfold Legacy.HasSuffix. rewrite string_length_app.
  replace (String.length a + String.length b - String.length b)%nat
    with (String.length a) by lia.
  rewrite substring_app, String.eqb_refl. apply andb_true_intro. split; [|done].
  apply Nat.leb_le. lia.
Qed.

Lemma HasSuffix_true (s suffix : string) :
  Legacy.HasSuffix s suffix = true -> exists pre, s = pre +:+ suffix.
Proof.
  unfold Legacy.HasSuffix. intros H. apply andb_prop in H as [Hle Heq].
  apply Nat.leb_le in Hle. apply String.eqb_eq in Heq.
  exists (substring 0 (String.length s - String.length suffix) s).
  rewrite <- Heq at 2. apply substring_split. lia.
Qed.

Lemma TrimRight_slash_app (s : string) :
  Legacy.TrimRight (s +:+ "/") "/" = Legacy.TrimRight s "/".
Proof.
  induction s as [|ch s IH]; [reflexivity|].
  rewrite string_app_cons. simpl. by rewrite IH.
Qed.

Lemma TrimRight_keep (s : string) (ch : Ascii.ascii) :
  Legacy.in_cutset ch "/" = false ->
  Legacy.TrimRight (s +:+ String ch "") "/" = s +:+ String ch "".
Proof.
  intros Hch. induction s as [|c s IH].
  - simpl. rewrite Hch. by rewrite ?andb_false_r.
  - rewrite string_app_cons. simpl. rewrite IH.
    rewrite bool_decide_false; [reflexivity|].
    destruct s; discriminate.
Qed.

Lemma NewClient_Endpoint (addr secret : string) (timeout : Z) :
  Legacy.Endpoint (Legacy.NewClient addr secret timeout)
  = (if Legacy.HasSuffix (Legacy.TrimRight addr "/") "/api"
     then Legacy.TrimRight addr "/" else Legacy.TrimRight addr "/" +:+ "/api") +:+ "/".
Proof. reflexivity. Qed.

Lemma NewClient_base (addr : string) :
  exists pre, (if Legacy.HasSuffix (Legacy.TrimRight addr "/") "/api"
               then Legacy.TrimRight addr "/" else Legacy.TrimRight addr "/" +:+ "/api")
              = pre +:+ "/api".
Proof.
  destruct (Legacy.HasSuffix (Legacy.TrimRight addr "/") "/api") eqn:H.
  - by apply HasSuffix_true.
  - by eexists.
Qed.

(** [NewClient] always yields an endpoint ending in "/api/" and an empty,
    non-nil command buffer, and the normalisation is idempotent: building a client
    from the endpoint of another gives the same endpoint. *)
Theorem Legacy_NewClient_endpoint (addr secret : string) (timeout : Z) :
  (exists pre, Legacy.Endpoint (Legacy.NewClient addr secret timeout) = pre +:+ "/api/") /\
  Legacy.cmds (Legacy.NewClient addr secret timeout) = Some [] /\
  forall secret' timeout',
    Legacy.Endpoint
      (Legacy.NewClient (Legacy.Endpoint (Legacy.NewClient addr secret timeout))
         secret' timeout')
    = Legacy.Endpoint (Legacy.NewClient addr secret timeout).
Proof.
  destruct (NewClient_base addr) as [pre Hpre].
  rewrite !NewClient_Endpoint, Hpre. split; [|split; [reflexivity|]].
  - exists pre. rewrite string_app_assoc. reflexivity.
  - intros secret' timeout'. rewrite NewClient_Endpoint.
    rewrite TrimRight_slash_app.
    replace (pre +:+ "/api") with ((pre +:+ "/ap") +:+ String (Ascii.ascii_of_nat 105) "")
      by (rewrite string_app_assoc; reflexivity).
    rewrite TrimRight_keep by reflexivity.
    replace ((pre +:+ "/ap") +:+ String (Ascii.ascii_of_nat 105) "") with (pre +:+ "/api")
      by (rewrite string_app_assoc; reflexivity).
    by rewrite HasSuffix_app.
Qed.

(** ** The legacy client: Send *)

Section LegacyFacts.

Variable MarshalCommand : Legacy.Command -> string + error.
Variable url_error : string -> option error.
Variable GenerateApiSign : string -> string -> string.
Variable status_text : Z -> string.
Variable ReadAll : Response -> string * option error.
Variable UnmarshalResult : string -> list Reply * option error.

(** The request the legacy [send] posts for the marshalled [data]. *)
Definition legacy_request (c : Legacy.Client) (data : string) : Request :=
  mkRequest "POST" (Legacy.Endpoint c)
    [("X-API-Sign", GenerateApiSign (Legacy.Secret c) data);
     ("Content-Type", "application/json")] data.

Definition legacy_answer (r : Response + error) : list Reply * option error :=
  match r with
  | inr e => ([], Some e)
  | inl resp =>
      if bool_decide (StatusCode resp <> 200)
      then ([], Some (TransportError ("wrong status code: " +:+ status_text (StatusCode resp))))
      else let '(body, _) := ReadAll resp in UnmarshalResult body
  end.

Lemma Legacy_send_exchanges (env : Env) (c : Legacy.Client) (cs : Legacy.CommandSlice) :
  ((run env (Legacy.send MarshalCommand url_error GenerateApiSign status_text ReadAll
               UnmarshalResult c cs)).2 = [] /\
   exists e, (run env (Legacy.send MarshalCommand url_error GenerateApiSign status_text
                         ReadAll UnmarshalResult c cs)).1 = ([], Some e)) \/
  (exists data,
     Legacy.MarshalSlice MarshalCommand cs = inl data /\ url_error (Legacy.Endpoint c) = None /\
     run env (Legacy.send MarshalCommand url_error GenerateApiSign status_text ReadAll
                UnmarshalResult c cs)
     = (legacy_answer (env_http env (legacy_request c data)),
        [(legacy_request c data, env_http env (legacy_request c data))])).
Proof.
  unfold Legacy.send.
  destruct (Legacy.MarshalSlice MarshalCommand cs) as [data | e]; [|left; simpl; eauto].
  unfold NewRequest. destruct (url_error (Legacy.Endpoint c)) as [e|] eqn:Hu;
    [left; simpl; eauto|].
  right. exists data. split; [done|]. split; [done|]. simpl.
  destruct (env_http env _) as [resp | e]; simpl; [|done].
  case_bool_decide; [reflexivity|]. by destruct (ReadAll resp).
Qed.

(** The client [Send] leaves: the same settings, an empty non-nil buffer. *)
Definition legacy_sent (c : Legacy.Client) : Legacy.Client :=
  Legacy.mkClient (Legacy.Endpoint c) (Legacy.Secret c) (Legacy.Timeout c) (Some []).

Lemma run_Legacy_Send (env : Env) (c : Legacy.Client) :
  run env (Legacy.Send MarshalCommand url_error GenerateApiSign status_text ReadAll
             UnmarshalResult c)
  = (match (run env (Legacy.send MarshalCommand url_error GenerateApiSign status_text
                       ReadAll UnmarshalResult (legacy_sent c) (Legacy.cmds c))).1 with
     | (result, Some e) => (legacy_sent c, ([], Some e))
     | (result, None) =>
         if bool_decide (length result <> length (Legacy.elems (Legacy.cmds c)))
         then (legacy_sent c, ([], Some ErrMalformedResponse))
         else (legacy_sent c, (result, None))
     end,
     (run env (Legacy.send MarshalCommand url_error GenerateApiSign status_text ReadAll
                 UnmarshalResult (legacy_sent c) (Legacy.cmds c))).2).
Proof.
  unfold Legacy.Send. unfold mbind, io_mbind. rewrite run_bind.
  fold (legacy_sent c).
  destruct (run env (Legacy.send _ _ _ _ _ _ _ _)) as [[result [e|]] tr]; simpl;
    [by rewrite app_nil_r|].
  case_bool_decide; simpl; by rewrite app_nil_r.
Qed.

Lemma Legacy_Send_client (env : Env) (c : Legacy.Client) :
  (run env (Legacy.Send MarshalCommand url_error GenerateApiSign status_text ReadAll
              UnmarshalResult c)).1.1 = legacy_sent c.
Proof.
  rewrite run_Legacy_Send. simpl.
  destruct (run env (Legacy.send _ _ _ _ _ _ _ _)) as [[result [e|]] tr]; simpl; [done|].
  case_bool_decide; done.
Qed.

(** [Send] empties the command buffer whatever the outcome, keeping the
    endpoint, secret and timeout; the one HTTP call it may make is a POST to
    the endpoint whose body is the [json.Marshal] of the whole buffered slice
    (one JSON array, or [null] for a nil slice), signed by an [X-API-Sign]
    header computed from the secret and exactly that body. *)
Theorem Legacy_Send_request (env : Env) (c : Legacy.Client) :
  (run env (Legacy.Send MarshalCommand url_error GenerateApiSign status_text ReadAll
              UnmarshalResult c)).1.1
    = Legacy.mkClient (Legacy.Endpoint c) (Legacy.Secret c) (Legacy.Timeout c) (Some []) /\
  ((run env (Legacy.Send MarshalCommand url_error GenerateApiSign status_text ReadAll
               UnmarshalResult c)).2 = [] \/
   exists req data,
     Legacy.MarshalSlice MarshalCommand (Legacy.cmds c) = inl data /\
     (run env (Legacy.Send MarshalCommand url_error GenerateApiSign status_text ReadAll
                 UnmarshalResult c)).2 = [(req, env_http env req)] /\
     ReqMethod req = "POST" /\ URL req = Legacy.Endpoint c /\ Body req = data /\
     Header req = [("X-API-Sign", GenerateApiSign (Legacy.Secret c) data);
                   ("Content-Type", "application/json")]).
Proof.
  split; [apply Legacy_Send_client|].
  rewrite run_Legacy_Send. simpl.
  destruct (Legacy_send_exchanges env (legacy_sent c) (Legacy.cmds c))
    as [[Htr _] | (data & Hm & _ & Hrun)].
  - left. exact Htr.
  - right. exists (legacy_request (legacy_sent c) data), data.
    rewrite Hrun. repeat split; done.
Qed.

Lemma Legacy_Send_body (env : Env) (c : Legacy.Client) (data : string) :
  Legacy.MarshalSlice MarshalCommand (Legacy.cmds c) = inl data ->
  url_error (Legacy.Endpoint c) = None ->
  exists req,
    (run env (Legacy.Send MarshalCommand url_error GenerateApiSign status_text ReadAll
                UnmarshalResult c)).2 = [(req, env_http env req)] /\
    ReqMethod req = "POST" /\ Body req = data.
Proof.
  intros Hm Hu. rewrite run_Legacy_Send. simpl.
  unfold Legacy.send. rewrite Hm. unfold NewRequest. simpl. rewrite Hu. simpl.
  match goal with |- context [env_http env ?r] => exists r; destruct (env_http env r) as [resp|] end;
    simpl; [case_bool_decide; [|destruct (ReadAll resp)]|]; simpl; repeat split; reflexivity.
Qed.

(** Unlike [SendPipe], [Send] does not check for an empty buffer: on a
    client with no buffered command it still makes one POST, with the body
    [[]] when the buffer is a non-nil empty slice (fresh from [NewClient], or
    after [Reset] or a previous [Send]) and [null] when it is nil (a
    [Client{}] literal). *)
Theorem Legacy_Send_empty_buffer (env : Env) (c : Legacy.Client) :
  url_error (Legacy.Endpoint c) = None ->
  (Legacy.cmds c = Some [] ->
   exists req,
     (run env (Legacy.Send MarshalCommand url_error GenerateApiSign status_text ReadAll
                 UnmarshalResult c)).2 = [(req, env_http env req)] /\
     ReqMethod req = "POST" /\ Body req = "[]") /\
  (Legacy.cmds c = None ->
   exists req,
     (run env (Legacy.Send MarshalCommand url_error GenerateApiSign status_text ReadAll
                 UnmarshalResult c)).2 = [(req, env_http env req)] /\
     ReqMethod req = "POST" /\ Body req = "null").
Proof.
  intros Hu. split; intros Hc; apply Legacy_Send_body; try done; by rewrite Hc.
Qed.

(** When the exchange of [Send] answers with a status other than 200, [Send]
    fails with the status text. After a 200 the outcome depends only on the
    bytes read and on [json.Unmarshal] of them: its error, or
    [ErrMalformedResponse] when the number of results differs from the number
    of buffered commands, or the results. The error of [ioutil.ReadAll] is
    overwritten by that of [json.Unmarshal] and never returned: a failed read
    whose partial body decodes to as many results as commands is a success. *)
Theorem Legacy_Send_result (env : Env) (c : Legacy.Client) (req : Request) (resp : Response) :
  In (req, inl resp)
     (run env (Legacy.Send MarshalCommand url_error GenerateApiSign status_text ReadAll
                 UnmarshalResult c)).2 ->
  (StatusCode resp <> 200 ->
     (run env (Legacy.Send MarshalCommand url_error GenerateApiSign status_text ReadAll
                 UnmarshalResult c)).1.2
     = ([], Some (TransportError ("wrong status code: " +:+ status_text (StatusCode resp))))) /\
  (StatusCode resp = 200 -> forall body read_err rs err,
     ReadAll resp = (body, read_err) -> UnmarshalResult body = (rs, err) ->
     (run env (Legacy.Send MarshalCommand url_error GenerateApiSign status_text ReadAll
                 UnmarshalResult c)).1.2
     = match err with
       | Some e => ([], Some e)
       | None => if bool_decide (length rs = length (Legacy.elems (Legacy.cmds c)))
                 then (rs, None) else ([], Some ErrMalformedResponse)
       end).
Proof.
  rewrite run_Legacy_Send. simpl. intros Hin.
  destruct (Legacy_send_exchanges env (legacy_sent c) (Legacy.cmds c))
    as [[Htr _] | (data & _ & _ & Hrun)].
  - rewrite Htr in Hin. destruct Hin.
  - rewrite Hrun in Hin |- *. simpl in Hin |- *. destruct Hin as [Heq | []].
    injection Heq as <- Hr. rewrite Hr. unfold legacy_answer. split.
    + intros Hst. rewrite bool_decide_true by done. reflexivity.
    + intros Hst body read_err rs err Hrd Hun. rewrite bool_decide_false by lia.
      rewrite Hrd, Hun.
      destruct err as [e|]; [reflexivity|].
      destruct (decide (length rs = length (Legacy.elems (Legacy.cmds c)))) as [Hl | Hl].
      * rewrite bool_decide_false by lia. by rewrite bool_decide_true.
      * rewrite bool_decide_true by lia. by rewrite bool_decide_false.
Qed.

(** [Send] does not keep the commands it sent, even when it fails: the
    client it leaves reports an empty buffer, a second [Send] posts [[]],
    and a command added after it is posted alone, as a one-element array. *)
Theorem Legacy_Send_drops_buffer (env : Env) (c : Legacy.Client) (channel data : string) :
  url_error (Legacy.Endpoint c) = None ->
  let c1 := (run env (Legacy.Send MarshalCommand url_error GenerateApiSign status_text
                        ReadAll UnmarshalResult c)).1.1 in
  Legacy.empty c1 = true /\
  (exists req,
     (run env (Legacy.Send MarshalCommand url_error GenerateApiSign status_text ReadAll
                 UnmarshalResult c1)).2 = [(req, env_http env req)] /\ Body req = "[]") /\
  (forall m,
     MarshalCommand (Legacy.mkCommand "publish" [("channel", channel); ("data", data)])
       = inl m ->
     exists req,
       (run env (Legacy.Send MarshalCommand url_error GenerateApiSign status_text ReadAll
                   UnmarshalResult (Legacy.AddPublish channel data c1).1)).2
         = [(req, env_http env req)] /\ Body req = "[" +:+ m +:+ "]").
Proof.
  intros Hu c1. subst c1. rewrite Legacy_Send_client. split; [reflexivity|]. split.
  - destruct (Legacy_Send_body env (legacy_sent c) "[]" eq_refl Hu) as (req & H1 & _ & H2).
    eauto.
  - intros m Hm.
    assert (Hs : Legacy.MarshalSlice MarshalCommand
                   (Legacy.cmds (Legacy.AddPublish channel data (legacy_sent c)).1)
                 = inl ("[" +:+ m +:+ "]")).
    { simpl. rewrite Hm. reflexivity. }
    destruct (Legacy_Send_body env _ _ Hs Hu) as (req & H1 & _ & H2). eauto.
Qed.

End LegacyFacts.

(** A legacy client answered by a server that returns no results. *)
Definition legacy_marshal (cmd : Legacy.Command) : string + error := inl "{}".
Definition legacy_sign (secret data : string) : string := "sign".
Definition legacy_status (code : Z) : string := "200 OK".
(** A body read that fails after reading [[]]. *)
Definition legacy_readall (resp : Response) : string * option error :=
  ("[]", Some (TransportError "unexpected EOF")).
Definition legacy_unmarshal (body : string) : list Reply * option error := ([], None).

Lemma Legacy_Send_empty_buffer_witness :
  exists req,
    (run (env_answering 200 [])
         (Legacy.Send legacy_marshal example_url_ok legacy_sign legacy_status legacy_readall
            legacy_unmarshal (Legacy.NewClient "http://localhost:8000" "secret" 5))).2
    = [(req, env_http (env_answering 200 []) req)] /\
    ReqMethod req = "POST" /\ Body req = "[]".
Proof.
  apply (proj1 (Legacy_Send_empty_buffer legacy_marshal example_url_ok legacy_sign
                  legacy_status legacy_readall legacy_unmarshal (env_answering 200 [])
                  (Legacy.NewClient "http://localhost:8000" "secret" 5) eq_refl) eq_refl).
Defined.

Lemma Legacy_Send_result_witness :
  (run (env_answering 200 [])
       (Legacy.Send legacy_marshal example_url_ok legacy_sign legacy_status legacy_readall
          legacy_unmarshal
          (Legacy.AddPresence "chat" (Legacy.NewClient "http://localhost:8000" "secret" 5)).1)).1.2
  = ([], Some ErrMalformedResponse).
Proof.
  assert (Hin : In (legacy_request legacy_sign
                      (Legacy.mkClient "http://localhost:8000/api/" "secret" 5 (Some [])) "[{}]",
                    inl (mkResponse 200 []))
     (run (env_answering 200 [])
          (Legacy.Send legacy_marshal example_url_ok legacy_sign legacy_status legacy_readall
             legacy_unmarshal
             (Legacy.AddPresence "chat"
                (Legacy.NewClient "http://localhost:8000" "secret" 5)).1)).2)
    by (vm_compute; left; reflexivity).
  rewrite (proj2 (Legacy_Send_result legacy_marshal example_url_ok legacy_sign legacy_status
                    legacy_readall legacy_unmarshal (env_answering 200 [])
                    (Legacy.AddPresence "chat"
                       (Legacy.NewClient "http://localhost:8000" "secret" 5)).1
                    _ _ Hin) eq_refl "[]" (Some (TransportError "unexpected EOF")) [] None
                    eq_refl eq_refl).
  reflexivity.
Defined.

Lemma Legacy_Send_drops_buffer_witness :
  exists req,
    (run (env_answering 200 [])
         (Legacy.Send legacy_marshal example_url_ok legacy_sign legacy_status legacy_readall
            legacy_unmarshal
            (Legacy.AddPublish "chat" "{}"
               (run (env_answering 200 [])
                    (Legacy.Send legacy_marshal example_url_ok legacy_sign legacy_status
                       legacy_readall legacy_unmarshal
                       (Legacy.mkClient "http://localhost:8000/api/" "secret" 5
                          (Some [Legacy.mkCommand "presence" [("channel", "chat")]])))).1.1).1)).2
    = [(req, env_http (env_answering 200 []) req)] /\ Body req = "[{}]".
Proof.
  exact (proj2 (proj2 (Legacy_Send_drops_buffer legacy_marshal example_url_ok legacy_sign
                         legacy_status legacy_readall legacy_unmarshal (env_answering 200 [])
                         (Legacy.mkClient "http://localhost:8000/api/" "secret" 5
                            (Some [Legacy.mkCommand "presence" [("channel", "chat")]]))
                         "chat" "{}" eq_refl)) "{}" eq_refl).
Defined.
